(** * generate.py: batch SSML synthesis with optional ffmpeg conversion

    A shallow embedding of [generate.py].  Pure helpers ([parse_ids], the
    command templates, the path expressions) are Rocq functions; the
    effectful code ([synthesize_ssml_wav], [convert_wav_bytes_with_ffmpeg],
    [write_direct_wav], [main]) runs in a small state-and-error monad over a
    [world] that holds the file system and the trace of observable actions.
    The things the script talks to (the TTS endpoint, the ffmpeg binary, the
    csv reader, base64, mkstemp) are the fields of an environment [Env]. *)

From Stdlib Require Import ZArith Lia Ascii String.
From stdpp Require Import base option list strings sorting gmap.

Set Warnings "-register-all".

(** ** Python string primitives

    A [string] is a sequence of code points below 256. *)
Module PyStr.

(** [str.isspace] on one character: the code points below 256 that Python
    treats as whitespace (9-13, 28-31, 32, 0x85, 0xA0). *)
Definition isspace (c : ascii) : bool :=
  bool_decide (Ascii.N_of_ascii c ∈
    [9; 10; 11; 12; 13; 28; 29; 30; 31; 32; 133; 160]%N).

(** [s.lstrip()] *)
Fixpoint lstrip (s : string) : string :=
  match s with
  | "" => ""
  | String c s' => if isspace c then lstrip s' else s
  end.

(** [s.rstrip()] *)
Fixpoint rstrip (s : string) : string :=
  match s with
  | "" => ""
  | String c s' =>
      match rstrip s' with
      | "" => if isspace c then "" else String c ""
      | r => String c r
      end
  end.

(** [s.strip()] *)
Definition strip (s : string) : string := rstrip (lstrip s).

(** [s.replace(old, new)] for one-character [old] and [new]. *)
Fixpoint replace (old new : ascii) (s : string) : string :=
  match s with
  | "" => ""
  | String c s' =>
      String (if decide (c = old) then new else c) (replace old new s')
  end.

Definition push_word (cur : string) (ws : list string) : list string :=
  match cur with "" => ws | _ => cur :: ws end.

(** [split_aux s] is the word that starts at the head of [s] (empty when
    [s] starts with whitespace) and the words after it. *)
Fixpoint split_aux (s : string) : string * list string :=
  match s with
  | "" => ("", [])
  | String c s' =>
      let '(cur, ws) := split_aux s' in
      if isspace c then ("", push_word cur ws) else (String c cur, ws)
  end.

(** [s.split()]: the maximal runs of non-whitespace, in order. *)
Definition split (s : string) : list string :=
  let '(cur, ws) := split_aux s in push_word cur ws.

(** Truthiness of a string: [not s] is [s = ""]. *)
Definition nonempty (s : string) : bool :=
  match s with "" => false | _ => true end.

End PyStr.

(** ** [parse_ids] *)

(** [None] is Python's [None], meaning "all rows". *)
Definition parse_ids (ids_arg : option string) : option (gset string) :=
  match ids_arg with
  | None => None
  | Some "" => None
  | Some s =>
      let parts := PyStr.strip <$> PyStr.split (PyStr.replace "," " " s) in
      let parts := filter (λ p, PyStr.nonempty p = true) parts in
      match parts with
      | [] => None
      | _ => Some (list_to_set parts)
      end
  end.


(** ** Data *)

Abbreviation bytes := (list Byte.byte).

(** [--format], restricted by argparse to its three [choices]. *)
Inductive format := Wav | Mp3 | Ogg.

Definition format_str (f : format) : string :=
  match f with Wav => "wav" | Mp3 => "mp3" | Ogg => "ogg" end.

(** The namespace returned by [parser.parse_args()]. *)
Record Args := {
  api_key : string;
  csv : string;
  outdir : string;
  ids : option string;
  id_col : string;
  ssml_col : string;
  voice : string;
  lang : string;
  fmt : format;
  use_ffmpeg : bool;
  delete_original_wav : bool;
}.

(** JSON values, as produced by [r.json()] and sent as [json=payload]. *)
Inductive json :=
| JNull
| JBool (b : bool)
| JNum (n : Z)
| JStr (s : string)
| JArr (l : list json)
| JObj (kvs : list (string * json)).

(** What the script reads of a [requests.Response]: [json_body] is [None]
    when [r.json()] raises. *)
Record response := {
  status_code : Z;
  text : string;
  json_body : option json;
}.

(** A row of [csv.DictReader]: a dict from column names to values, where a
    value is [None] (Python's [None]) for a column the line is too short to
    fill. *)
Abbreviation row := (gmap string (option string)).

(** Exceptions that the script raises or lets through. *)
Inductive exn :=
| TTSFailed (status : Z) (err : json)
    (* RuntimeError(f"TTS failed ({r.status_code}): {err}") *)
| EmptyCsv
    (* RuntimeError("CSV appears empty or missing header row.") *)
| MissingIdCol (col : string) (found : list string)
    (* KeyError(f"Missing id column '{args.id_col}'. Found: ...") *)
| MissingSsmlCol (col : string) (found : list string)
    (* KeyError(f"Missing SSML column '{args.ssml_col}'. Found: ...") *)
| UnsupportedFormat (f : string)
    (* ValueError(f"Unsupported format: {fmt}") *)
| CalledProcessError (cmd : list string)
    (* subprocess.run(cmd, check=True) on a non-zero exit status *)
| ExecNotFound (cmd : list string)
    (* FileNotFoundError from subprocess.run: no such program *)
| RequestFailed
    (* requests.post raising: timeout, connection error *)
| JSONDecodeError
    (* r.json() on a body that is not JSON *)
| NoAudioContent
    (* r.json()["audioContent"]: KeyError, or TypeError on a non-object *)
| BadBase64.
    (* base64.b64decode raising: binascii.Error, or TypeError when
       "audioContent" is not a string *)

(** Lines printed by the script. *)
Inductive message :=
| CsvNotFound (p : string)
    (* f"CSV not found: {csv_path.resolve()}" *)
| NeedFfmpeg
    (* "For mp3/ogg, you must pass --use-ffmpeg." *)
| FfmpegMissing
    (* "ffmpeg not found on PATH. Install ffmpeg and ..." *)
| SkippingEmpty (row_id : string)
    (* f"Skipping id={row_id}: empty SSML" *)
| Wrote (out_path : string)
    (* f"Wrote {out_path}" *)
| WroteNoIntermediate (out_path : string)
    (* f"Wrote {out_path} (no intermediate wav kept)" *)
| WroteKept (out_path intermediate_wav : string)
    (* f"Wrote {out_path} (kept {intermediate_wav})" *)
| IdsNotFound (not_found : list string)
    (* "\nIDs not found in CSV:", ", ".join(not_found) *)
| DoneMsg (generated skipped : nat).
    (* f"\nDone. Generated: {generated} | Skipped: {skipped}" *)

(** Observable actions, in the order they happen. *)
Inductive event :=
| Post (url : string) (payload : json)   (* requests.post(url, json=payload) *)
| Run (cmd : list string)                (* subprocess.run(cmd, ...) *)
| Stdout (m : message)                   (* print(...) *)
| Stderr (m : message).                  (* print(..., file=sys.stderr) *)

(** The mutable world: the audio files on disk, each under the path string
    by which it is opened ([str] of the pathlib path), and the trace. *)
Record world := {
  files : gmap string bytes;
  log : list event;
}.

(** What the script runs against.
    - [tts url payload]: the response to the POST, [None] when
      [requests.post] itself raises;
    - [b64decode s]: [base64.b64decode], [None] when it raises;
    - [dataset p]: [None] when [p] does not exist, otherwise the
      [fieldnames] and the rows that [csv.DictReader] yields for it (the
      dataset is not rewritten during a run);
    - [ffmpeg_installed]: whether an [ffmpeg] program is on the PATH;
    - [ffmpeg_encode opts out data]: the bytes ffmpeg writes to [out] for
      the input [data] under the options [opts], [None] when it exits with a
      non-zero status;
    - [mkstemp_name suffix used]: the name [tempfile.mkstemp] picks when the
      paths in [used] exist. *)
Record Env := {
  tts : string → json → option response;
  b64decode : string → option bytes;
  dataset : string → option (list string * list row);
  ffmpeg_installed : bool;
  ffmpeg_encode : list string → string → bytes → option bytes;
  mkstemp_name : string → gset string → string;
}.

(** ** The monad: state, [sys.exit] and exceptions *)

Inductive result (A : Type) :=
| Ok (a : A)
| Exit (code : Z)
| Raise (e : exn).
Arguments Ok {A} a.
Arguments Exit {A} code.
Arguments Raise {A} e.

Definition M (A : Type) : Type := world → result A * world.

#[global] Instance M_ret : MRet M := λ A a w, (Ok a, w).
#[global] Instance M_bind : MBind M := λ A B f m w,
  match m w with
  | (Ok a, w') => f a w'
  | (Exit c, w') => (Exit c, w')
  | (Raise e, w') => (Raise e, w')
  end.

Definition sys_exit {A} (code : Z) : M A := λ w, (Exit code, w).
Definition raise {A} (e : exn) : M A := λ w, (Raise e, w).

(** [try: body finally: fin]. *)
Definition try_finally {A} (body : M A) (fin : M unit) : M A := λ w,
  let '(r, w1) := body w in
  match fin w1 with
  | (Ok _, w2) => (r, w2)
  | (Exit c, w2) => (Exit c, w2)
  | (Raise e, w2) => (Raise e, w2)
  end.

(** [try: body except Exception: handler]; [SystemExit] is not an
    [Exception] and passes through. *)
Definition try_except {A} (body : M A) (handler : M A) : M A := λ w,
  match body w with
  | (Raise _, w1) => handler w1
  | rw => rw
  end.

Definition emit (e : event) : M unit := λ w,
  (Ok (), {| files := files w; log := log w ++ [e] |}).

Definition print (m : message) : M unit := emit (Stdout m).
Definition eprint (m : message) : M unit := emit (Stderr m).

(** ** File system *)

(** [open(p, "wb").write(b)] *)
Definition write_file (p : string) (b : bytes) : M unit := λ w,
  (Ok (), {| files := <[p := b]> (files w); log := log w |}).

(** [os.path.exists(p)] *)
Definition path_exists (p : string) : M bool := λ w,
  (Ok (bool_decide (is_Some (files w !! p))), w).

(** [os.remove(p)] of an existing file. *)
Definition os_remove (p : string) : M unit := λ w,
  (Ok (), {| files := delete p (files w); log := log w |}).

(** [p.mkdir(parents=True, exist_ok=True)]: directories are not tracked. *)
Definition mkdir_parents (p : string) : M unit := mret ().

(** [tempfile.mkstemp(suffix=...)] followed by [os.close]: an empty file
    under a new name. *)
Definition mkstemp (E : Env) (suffix : string) : M string := λ w,
  let p := mkstemp_name E suffix (dom (files w)) in
  (Ok p, {| files := <[p := []]> (files w); log := log w |}).

(** *** pathlib

    Paths are pathlib's pure POSIX paths: a root ([""], ["/"] or ["//"])
    and the components after it.  Parsing a string drops empty components
    and ["."] components (so repeated and trailing slashes too) and keeps
    [".."]. *)

(** [s.split("/")] *)
Fixpoint split_slash (s : string) : list string :=
  match s with
  | "" => [""]
  | String c s' =>
      if bool_decide (c = "/"%char) then "" :: split_slash s'
      else match split_slash s' with
           | h :: t => String c h :: t
           | [] => [String c ""]
           end
  end.

(** The root of a path string: one leading slash or three and more give
    ["/"], exactly two give ["//"]. *)
Definition path_root (s : string) : string :=
  match s with
  | String c1 s1 =>
      if bool_decide (c1 = "/"%char) then
        match s1 with
        | String c2 s2 =>
            if bool_decide (c2 = "/"%char) then
              match s2 with
              | String c3 _ => if bool_decide (c3 = "/"%char) then "/" else "//"
              | "" => "//"
              end
            else "/"
        | "" => "/"
        end
      else ""
  | "" => ""
  end.

(** The components of a path string. *)
Definition path_parts (s : string) : list string :=
  filter (λ x, x ≠ "" ∧ x ≠ ".") (split_slash s).

Record pure_path := {
  p_root : string;
  p_parts : list string;
}.

(** [Path(s)] *)
Definition Path (s : string) : pure_path :=
  {| p_root := path_root s; p_parts := path_parts s |}.

(** A path string that starts at the root. *)
Definition is_absolute (name : string) : bool :=
  match name with
  | String c _ => bool_decide (c = "/"%char)
  | "" => false
  end.

(** [p / name]: an absolute [name] replaces [p], a relative one adds its
    components to those of [p]. *)
Definition truediv (p : pure_path) (name : string) : pure_path :=
  if is_absolute name then Path name
  else {| p_root := p_root p; p_parts := p_parts p ++ path_parts name |}.

(** ["/".join(l)] *)
Fixpoint join_slash (l : list string) : string :=
  match l with
  | [] => ""
  | [x] => x
  | x :: l' => x +:+ "/" +:+ join_slash l'
  end.

(** [str(p)]: the path without root and components is ["."]. *)
Definition path_str (p : pure_path) : string :=
  match p_root p, p_parts p with
  | "", [] => "."
  | r, ps => r +:+ join_slash ps
  end.

(** [str(Path(d) / name)], the string under which the script opens the
    file and names it to ffmpeg. *)
Definition path_join (d name : string) : string :=
  path_str (truediv (Path d) name).

(** [outdir / f"{row_id}.{ext}"] *)
Definition out_file (outdir row_id ext : string) : string :=
  path_join outdir (row_id +:+ "." +:+ ext).

(** ** The external programs *)

(** [subprocess.run(cmd, check=True)].  The only program the script starts
    is ffmpeg, with [-version] or with [-y -i INPUT OPTIONS... OUTPUT]: it
    reads INPUT and writes OUTPUT (overwriting, [-y]). *)
Definition subprocess_run (E : Env) (cmd : list string) : M unit :=
  emit (Run cmd);;
  match cmd with
  | prog :: argv =>
      if decide (prog = "ffmpeg" ∧ ffmpeg_installed E = true) then
        match argv with
        | [flag] =>
            if decide (flag = "-version") then mret ()
            else raise (CalledProcessError cmd)
        | y :: i :: input :: rest =>
            if decide (y = "-y" ∧ i = "-i") then
              match last rest with
              | Some output => λ w,
                  match files w !! input with
                  | Some data =>
                      match
                        ffmpeg_encode E (take (length rest - 1) rest)
                                      output data
                      with
                      | Some b => write_file output b w
                      | None => raise (CalledProcessError cmd) w
                      end
                  | None => raise (CalledProcessError cmd) w
                  end
              | None => raise (CalledProcessError cmd)
              end
            else raise (CalledProcessError cmd)
        | _ => raise (CalledProcessError cmd)
        end
      else raise (ExecNotFound cmd)
  | [] => raise (ExecNotFound cmd)
  end.

(** ** [synthesize_ssml_wav] *)

Definition tts_url (api_key : string) : string :=
  "https://texttospeech.googleapis.com/v1/text:synthesize?key=" +:+ api_key.

Definition tts_payload (voice_name language_code ssml : string) : json :=
  JObj [("input", JObj [("ssml", JStr ssml)]);
        ("voice", JObj [("languageCode", JStr language_code);
                        ("name", JStr voice_name)]);
        ("audioConfig", JObj [("audioEncoding", JStr "LINEAR16")])].

(** [requests.post(url, json=payload, timeout=60)] *)
Definition requests_post (E : Env) (url : string) (payload : json)
  : M response :=
  emit (Post url payload);;
  match tts E url payload with
  | Some r => mret r
  | None => raise RequestFailed
  end.

(** [d[key]] on a parsed JSON object: the last binding of a repeated key is
    the one the parser keeps. *)
Definition json_getitem (j : json) (key : string) : option json :=
  match j with
  | JObj kvs => snd <$> last (filter (λ kv, kv.1 = key) kvs)
  | _ => None
  end.

Definition synthesize_ssml_wav (E : Env)
    (api_key voice_name language_code ssml : string) : M bytes :=
  let url := tts_url api_key in
  let payload := tts_payload voice_name language_code ssml in
  r ← requests_post E url payload;
  if decide (status_code r ≠ 200%Z) then
    let err :=
      match json_body r with
      | Some j => j
      | None => JObj [("raw", JStr (text r))]
      end in
    raise (TTSFailed (status_code r) err)
  else
    match json_body r with
    | None => raise JSONDecodeError
    | Some j =>
        match json_getitem j "audioContent" with
        | None => raise NoAudioContent
        | Some (JStr audio_b64) =>
            match b64decode E audio_b64 with
            | Some b => mret b
            | None => raise BadBase64
            end
        | Some _ => raise BadBase64
        end
    end.

(** ** [ffmpeg_exists] *)

Definition ffmpeg_exists (E : Env) : M bool :=
  try_except
    (subprocess_run E ["ffmpeg"; "-version"];; mret true)
    (mret false).

(** ** [convert_wav_bytes_with_ffmpeg] *)

(** The [cmd] chosen by the [if fmt == ...] chain, [None] in its [else]. *)
Definition ffmpeg_cmd (f tmp_wav_path out_path : string)
  : option (list string) :=
  if decide (f = "wav") then
    Some ["ffmpeg"; "-y"; "-i"; tmp_wav_path; "-c:a"; "pcm_s16le"; out_path]
  else if decide (f = "mp3") then
    Some ["ffmpeg"; "-y"; "-i"; tmp_wav_path;
          "-codec:a"; "libmp3lame"; "-q:a"; "2"; out_path]
  else if decide (f = "ogg") then
    Some ["ffmpeg"; "-y"; "-i"; tmp_wav_path;
          "-codec:a"; "libvorbis"; "-q:a"; "5"; out_path]
  else None.

Definition convert_wav_bytes_with_ffmpeg (E : Env)
    (wav_bytes : bytes) (out_path f : string) (delete_temp : bool) : M unit :=
  mkdir_parents out_path;;
  tmp_wav_path ← mkstemp E ".wav";
  try_finally
    (write_file tmp_wav_path wav_bytes;;
     cmd ← match ffmpeg_cmd f tmp_wav_path out_path with
           | Some cmd => mret cmd
           | None => raise (UnsupportedFormat f)
           end;
     subprocess_run E cmd)
    (ex ← path_exists tmp_wav_path;
     if delete_temp && ex then os_remove tmp_wav_path else mret ()).

(** ** [write_direct_wav] *)

Definition write_direct_wav (wav_bytes : bytes) (out_path : string) : M unit :=
  mkdir_parents out_path;;
  write_file out_path wav_bytes.

(** ** [main] *)

#[global] Instance format_eq_dec : EqDecision format.
Proof. solve_decision. Defined.

(** The counters and the set that [main] updates while it reads the rows. *)
Record loop_state := {
  generated : nat;
  skipped : nat;
  seen_ids : gset string;
}.

Definition init_state : loop_state :=
  {| generated := 0; skipped := 0; seen_ids := ∅ |}.

(** [str(row.get(col, ""))]: [str(None)] is ["None"]. *)
Definition row_get_str (r : row) (col : string) : string :=
  match r !! col with
  | Some (Some s) => s
  | Some None => "None"
  | None => ""
  end.

(** [row.get(col) or ""] *)
Definition row_get_or_empty (r : row) (col : string) : string :=
  match r !! col with
  | Some (Some s) => s
  | _ => ""
  end.

(** [row_id] and [ssml] as [main] computes them from a row. *)
Definition row_id_of (args : Args) (r : row) : string :=
  PyStr.strip (row_get_str r (id_col args)).
Definition ssml_of (args : Args) (r : row) : string :=
  PyStr.strip (row_get_or_empty r (ssml_col args)).

(** [wanted_ids is not None and row_id not in wanted_ids] *)
Definition filtered_out (wanted_ids : option (gset string)) (row_id : string)
  : bool :=
  match wanted_ids with
  | Some W => bool_decide (row_id ∉ W)
  | None => false
  end.

(** The [# Output] block of the loop body. *)
Definition write_output (E : Env) (args : Args) (row_id : string)
    (wav_bytes : bytes) : M unit :=
  if bool_decide (fmt args = Wav) && negb (use_ffmpeg args) then
    let out_path := out_file (outdir args) row_id "wav" in
    write_direct_wav wav_bytes out_path;;
    print (Wrote out_path)
  else if bool_decide (fmt args = Wav) && use_ffmpeg args then
    let out_path := out_file (outdir args) row_id "wav" in
    convert_wav_bytes_with_ffmpeg E wav_bytes out_path "wav" true;;
    print (Wrote out_path)
  else
    let intermediate_wav := out_file (outdir args) row_id "wav" in
    if delete_original_wav args then
      let out_path := out_file (outdir args) row_id (format_str (fmt args)) in
      convert_wav_bytes_with_ffmpeg E wav_bytes out_path
        (format_str (fmt args)) true;;
      print (WroteNoIntermediate out_path)
    else
      write_direct_wav wav_bytes intermediate_wav;;
      let out_path := out_file (outdir args) row_id (format_str (fmt args)) in
      subprocess_run E ["ffmpeg"; "-y"; "-i"; intermediate_wav; out_path];;
      print (WroteKept out_path intermediate_wav).

(** The body of [for row in reader]. *)
Definition row_body (E : Env) (args : Args) (wanted_ids : option (gset string))
    (r : row) (st : loop_state) : M loop_state :=
  let row_id := row_id_of args r in
  if negb (PyStr.nonempty row_id) then
    mret {| generated := generated st; skipped := S (skipped st);
            seen_ids := seen_ids st |}
  else
    let st := {| generated := generated st; skipped := skipped st;
                 seen_ids := seen_ids st ∪ {[row_id]} |} in
    if filtered_out wanted_ids row_id then mret st
    else
      let ssml := ssml_of args r in
      if negb (PyStr.nonempty ssml) then
        print (SkippingEmpty row_id);;
        mret {| generated := generated st; skipped := S (skipped st);
                seen_ids := seen_ids st |}
      else
        wav_bytes ← synthesize_ssml_wav E (api_key args) (voice args)
                      (lang args) ssml;
        write_output E args row_id wav_bytes;;
        mret {| generated := S (generated st); skipped := skipped st;
                seen_ids := seen_ids st |}.

Fixpoint for_rows (body : row → loop_state → M loop_state)
    (rows : list row) (st : loop_state) : M loop_state :=
  match rows with
  | [] => mret st
  | r :: rows' => st' ← body r st; for_rows body rows' st'
  end.

(** [sorted(list(wanted_ids - seen_ids))] *)
Definition not_found_ids (wanted seen : gset string) : list string :=
  merge_sort String.le (elements (wanted ∖ seen)).

Definition lossy (f : format) : bool :=
  match f with Wav => false | Mp3 | Ogg => true end.

Definition main (E : Env) (args : Args) : M unit :=
  let wanted_ids := parse_ids (ids args) in
  let csv_path := csv args in
  match dataset E csv_path with
  | None => eprint (CsvNotFound csv_path);; sys_exit 1
  | Some (fieldnames, rows) =>
      mkdir_parents (outdir args);;
      (if lossy (fmt args) && negb (use_ffmpeg args)
       then eprint NeedFfmpeg;; sys_exit 2 else mret ());;
      (if use_ffmpeg args then
         found ← ffmpeg_exists E;
         if negb found then eprint FfmpegMissing;; sys_exit 3 else mret ()
       else mret ());;
      (if decide (fieldnames = []) then raise EmptyCsv else mret ());;
      (if decide (id_col args ∈ fieldnames) then mret ()
       else raise (MissingIdCol (id_col args) fieldnames));;
      (if decide (ssml_col args ∈ fieldnames) then mret ()
       else raise (MissingSsmlCol (ssml_col args) fieldnames));;
      st ← for_rows (row_body E args wanted_ids) rows init_state;
      match wanted_ids with
      | Some W =>
          match not_found_ids W (seen_ids st) with
          | [] => mret ()
          | not_found => print (IdsNotFound not_found)
          end
      | None => mret ()
      end;;
      print (DoneMsg (generated st) (skipped st))
  end.

(** The POST requests in a trace. *)
Definition posts (l : list event) : list (string * json) :=
  omap (λ e, match e with Post u p => Some (u, p) | _ => None end) l.

(** The commands run in a trace. *)
Definition runs (l : list event) : list (list string) :=
  omap (λ e, match e with Run c => Some c | _ => None end) l.

(** The lines printed on standard output in a trace. *)
Definition printed (l : list event) : list message :=
  omap (λ e, match e with Stdout m => Some m | _ => None end) l.

Definition empty_world : world := {| files := ∅; log := [] |}.

(** ** A concrete environment for examples *)
Module Demo.

Definition mk_row (id ssml : string) : row :=
  {[ "id" := Some id; "ssml" := Some ssml ]}.

(** A service that answers 200 with the markup itself as the payload. *)
Definition echo (url : string) (payload : json) : option response :=
  match json_getitem payload "input" with
  | Some inp =>
      match json_getitem inp "ssml" with
      | Some s =>
          Some {| status_code := 200; text := "";
                  json_body := Some (JObj [("audioContent", s)]) |}
      | None => None
      end
  | None => None
  end.

Definition rows123 : list row :=
  [mk_row "1" "<speak>one</speak>"; mk_row "2" "<speak>two</speak>";
   mk_row "3" "<speak>three</speak>"].

(** An environment with the service [svc], with or without ffmpeg, and with
    one dataset, [transcripts.csv], with the columns [id] and [ssml]. *)
Definition env_of (svc : string → json → option response)
    (installed : bool) (rows : list row) : Env :=
  {| tts := svc;
     b64decode := λ s, Some [Byte.x52; Byte.x49; Byte.x46; Byte.x46];
     dataset := λ p,
       if decide (p = "transcripts.csv") then Some (["id"; "ssml"], rows)
       else None;
     ffmpeg_installed := installed;
     ffmpeg_encode := λ opts out data, Some (Byte.x00 :: data);
     mkstemp_name := λ suffix used, "/tmp/tmpq3x9" +:+ suffix |}.

Definition env : bool → list row → Env := env_of echo.

(** A service that answers with a fixed response. *)
Definition always (resp : response) (url : string) (payload : json)
  : option response := Some resp.

Definition args (f : format) (ff del : bool) (ids : option string) : Args :=
  {| api_key := "KEY"; csv := "transcripts.csv"; outdir := "out_audio";
     ids := ids; id_col := "id"; ssml_col := "ssml";
     voice := "en-GB-Chirp3-HD-Leda"; lang := "en-GB";
     fmt := f; use_ffmpeg := ff; delete_original_wav := del |}.

End Demo.

(** ** Notions used in the statements *)

(** Unfolds the monad and the file-system primitives in a run. *)
Ltac unfold_M :=
  cbv beta iota zeta delta
    [mbind M_bind mret M_ret sys_exit raise eprint print emit mkdir_parents
     write_file path_exists os_remove mkstemp try_finally try_except] in *;
  cbn [files log] in *.

(** A result that is not a [sys.exit]. *)
Definition not_exit {A} (r : result A) : Prop :=
  match r with Exit _ => False | _ => True end.

(** The events of the row loop and of the checks before it: everything but
    the two closing reports. *)
Definition loop_event (e : event) : Prop :=
  match e with
  | Post _ _ | Run _ => True
  | Stdout (SkippingEmpty _ | Wrote _ | WroteNoIntermediate _ | WroteKept _ _) =>
      True
  | _ => False
  end.

(** [extends w w' ps]: the trace of [w'] is the trace of [w] followed by
    loop events, of which the requests are [ps]. *)
Definition extends (w w' : world) (ps : list (string * json)) : Prop :=
  ∃ new, log w' = log w ++ new ∧ Forall loop_event new ∧ posts new = ps.

(** A row that is submitted: its id is not empty, it passes the id filter,
    and its markup is not empty. *)
Definition eligible (args : Args) (wanted : option (gset string)) (r : row)
  : bool :=
  PyStr.nonempty (row_id_of args r)
  && negb (filtered_out wanted (row_id_of args r))
  && PyStr.nonempty (ssml_of args r).

(** A row that adds one to [skipped]: its id is empty, or it passes the id
    filter and its markup is empty. *)
Definition skip_counted (args : Args) (wanted : option (gset string)) (r : row)
  : bool :=
  negb (PyStr.nonempty (row_id_of args r))
  || (negb (filtered_out wanted (row_id_of args r))
      && negb (PyStr.nonempty (ssml_of args r))).

(** The request that [main] sends for a row. *)
Definition request_of (args : Args) (r : row) : string * json :=
  (tts_url (api_key args),
   tts_payload (voice args) (lang args) (ssml_of args r)).

(** The ids that end up in [seen_ids]. *)
Definition ids_seen (args : Args) (rows : list row) : gset string :=
  list_to_set (filter (λ i, PyStr.nonempty i) (row_id_of args <$> rows)).

(** [w] after the events [evs], with the same files. *)
Definition add_log (w : world) (evs : list event) : world :=
  {| files := files w; log := log w ++ evs |}.

(** The lines that close a run that read every row. *)
Definition closing_report (wanted : option (gset string)) (st : loop_state)
  : list event :=
  match wanted with
  | Some W =>
      match not_found_ids W (seen_ids st) with
      | [] => []
      | not_found => [Stdout (IdsNotFound not_found)]
      end
  | None => []
  end ++ [Stdout (DoneMsg (generated st) (skipped st))].

(** The world in which the rows are read: the checks passed, and
    [ffmpeg -version] was run if [--use-ffmpeg] was given. *)
Definition after_checks (args : Args) (w : world) : world :=
  if use_ffmpeg args then add_log w [Run ["ffmpeg"; "-version"]] else w.

(** The characters that separate ids: the comma and whitespace. *)
Definition is_sep (c : ascii) : bool :=
  bool_decide (c = ","%char) || PyStr.isspace c.

(** Every character of [s] satisfies [p]. *)
Fixpoint all_chars (p : ascii → bool) (s : string) : bool :=
  match s with
  | "" => true
  | String c s' => p c && all_chars p s'
  end.

(** A string of separators only, and a string without any. *)
Definition all_sep (s : string) : bool := all_chars is_sep s.
Definition sep_free (s : string) : bool := all_chars (λ c, negb (is_sep c)) s.

(** [t1 s1 t2 s2 ...]: tokens, each followed by its separators. *)
Fixpoint join_tokens (items : list (string * string)) : string :=
  match items with
  | [] => ""
  | (t, s) :: rest => t +:+ s +:+ join_tokens rest
  end.

(** A token with the separators after it: the token is not empty and has no
    separator in it, and at least one separator follows. *)
Definition item_ok (item : string * string) : Prop :=
  item.1 ≠ "" ∧ sep_free item.1 = true ∧
  item.2 ≠ "" ∧ all_sep item.2 = true.

(** [args] with another [--ids]. *)
Definition set_ids (i : option string) (a : Args) : Args :=
  {| api_key := api_key a; csv := csv a; outdir := outdir a; ids := i;
     id_col := id_col a; ssml_col := ssml_col a; voice := voice a;
     lang := lang a; fmt := fmt a; use_ffmpeg := use_ffmpeg a;
     delete_original_wav := delete_original_wav a |}.

(** [ids_arg.replace(",", " ").split()] *)
Definition id_words (s : string) : list string :=
  PyStr.split (PyStr.replace "," " " s).

(** A string without whitespace. *)
Definition no_space (s : string) : bool :=
  all_chars (λ c, negb (PyStr.isspace c)) s.

(** The options of the conversion template for a format. *)
Definition template_opts (f : format) : list string :=
  match f with
  | Wav => ["-c:a"; "pcm_s16le"]
  | Mp3 => ["-codec:a"; "libmp3lame"; "-q:a"; "2"]
  | Ogg => ["-codec:a"; "libvorbis"; "-q:a"; "5"]
  end.


(** A string without a comma. *)
Definition no_comma (s : string) : bool :=
  all_chars (λ c, negb (bool_decide (c = ","%char))) s.


(** What the service must have answered for a row to go through. *)
Definition answered_ok (E : Env) (args : Args) (r : row) : Prop :=
  ∃ resp j a b,
    tts E (request_of args r).1 (request_of args r).2 = Some resp ∧
    status_code resp = 200%Z ∧ json_body resp = Some j ∧
    json_getitem j "audioContent" = Some (JStr a) ∧ b64decode E a = Some b.

(** A string without a slash. *)
Definition slash_free (s : string) : bool :=
  all_chars (λ c, negb (bool_decide (c = "/"%char))) s.

(** One step of the way to a file: [".."] goes back to the directory above
    (the root is its own parent), any other component goes down.  The way
    is kept innermost first. *)
Definition walk (way : list string) (c : string) : list string :=
  if decide (c = "..") then tail way else c :: way.

(** Where the file named by the path string [s] is, innermost directory
    first, when the current directory is [cwd] (from the root down): the
    file that the operating system opens for [s] on a file system without
    symbolic links.  Two path strings with the same [realpath] are two
    spellings of one file. *)
Definition realpath (cwd : list string) (s : string) : list string :=
  foldl walk (if is_absolute s then [] else reverse cwd) (path_parts s).

(** The arguments of the examples with another [--outdir]. *)
Definition args_in (dir : string) (f : format) (ff del : bool) : Args :=
  {| api_key := "KEY"; csv := "transcripts.csv"; outdir := dir;
     ids := None; id_col := "id"; ssml_col := "ssml";
     voice := "en-GB-Chirp3-HD-Leda"; lang := "en-GB";
     fmt := f; use_ffmpeg := ff; delete_original_wav := del |}.


(** ** Basic facts about the effects *)

(** The example of the docstring of [parse_ids]. *)
Example parse_ids_commas : parse_ids (Some "1,2,3") = Some {["1"; "2"; "3"]}.
Proof. vm_compute. reflexivity. Qed.

Example parse_ids_spaces : parse_ids (Some "1 2 3") = Some {["1"; "2"; "3"]}.
Proof. vm_compute. reflexivity. Qed.

Lemma posts_app l1 l2 : posts (l1 ++ l2) = posts l1 ++ posts l2.
Proof. unfold posts. apply omap_app. Qed.

Lemma runs_app l1 l2 : runs (l1 ++ l2) = runs l1 ++ runs l2.
Proof. unfold runs. apply omap_app. Qed.

Lemma printed_app l1 l2 : printed (l1 ++ l2) = printed l1 ++ printed l2.
Proof. unfold printed. apply omap_app. Qed.

Lemma extends_log w w' : log w' = log w → extends w w' [].
Proof. intros H. exists []. by rewrite app_nil_r. Qed.

Lemma extends_refl w : extends w w [].
Proof. by apply extends_log. Qed.

Lemma extends_trans w w1 w2 p1 p2 :
  extends w w1 p1 → extends w1 w2 p2 → extends w w2 (p1 ++ p2).
Proof.
  intros (n1 & H1 & F1 & <-) (n2 & H2 & F2 & <-). exists (n1 ++ n2).
  rewrite H2, H1, <-(assoc_L (++)), posts_app.
  split; [done|]. split; [by apply Forall_app|done].
Qed.

Lemma extends_one w w' e :
  log w' = log w ++ [e] → loop_event e → extends w w' (posts [e]).
Proof. intros H He. exists [e]. by repeat constructor. Qed.

(** Starting a program logs the command, never exits the script, and either
    leaves the files alone or writes one file: the last word of the
    command. *)
Lemma subprocess_run_spec E cmd w r w' :
  subprocess_run E cmd w = (r, w') →
  not_exit r ∧ log w' = log w ++ [Run cmd] ∧
  (files w' = files w ∨
   ∃ out b, r = Ok () ∧ last cmd = Some out ∧ files w' = <[out := b]> (files w)).
Proof.
  unfold subprocess_run. unfold_M. simpl.
  destruct cmd as [|prog argv]; [intros [= <- <-]; simpl; auto|].
  case_decide as Hp; [|intros [= <- <-]; simpl; auto].
  destruct argv as [|a1 [|a2 [|a3 rest]]]; try (intros [= <- <-]; simpl; auto).
  - case_decide; intros [= <- <-]; simpl; auto.
  - case_decide; [|intros [= <- <-]; simpl; auto].
    destruct (last rest) as [out|] eqn:Hl; [|intros [= <- <-]; simpl; auto].
    simpl. destruct (files w !! a3) as [data|]; [|intros [= <- <-]; simpl; auto].
    destruct (ffmpeg_encode E _ out data) as [b|];
      intros [= <- <-]; simpl; auto.
    split; [done|]. split; [done|]. right. exists out, b.
    split; [done|]. split; [|done].
    destruct rest as [|x rest']; [done|].
    exact Hl.
Qed.

(** One call of [synthesize_ssml_wav] sends exactly one POST, touches no
    file and never exits the script. *)
Lemma synthesize_spec E k v l s w r w' :
  synthesize_ssml_wav E k v l s w = (r, w') →
  not_exit r ∧ files w' = files w ∧
  log w' = log w ++ [Post (tts_url k) (tts_payload v l s)].
Proof.
  unfold synthesize_ssml_wav, requests_post. unfold_M. simpl.
  destruct (tts E _ _) as [resp|]; [|intros [= <- <-]; simpl; auto].
  case_decide; [intros [= <- <-]; simpl; auto|].
  destruct (json_body resp) as [j|]; [|intros [= <- <-]; simpl; auto].
  destruct (json_getitem j "audioContent") as [[]|];
    try (intros [= <- <-]; simpl; auto).
  destruct (b64decode E s0); intros [= <- <-]; simpl; auto.
Qed.

(** A successful conversion command read its input and wrote its last
    word, encoded under the options in between. *)
Lemma ffmpeg_convert_ok E input rest w w' :
  subprocess_run E ("ffmpeg" :: "-y" :: "-i" :: input :: rest) w = (Ok (), w') →
  ∃ out data b,
    last rest = Some out ∧ files w !! input = Some data ∧
    ffmpeg_encode E (take (length rest - 1) rest) out data = Some b ∧
    files w' = <[out := b]> (files w) ∧
    log w' = log w ++ [Run ("ffmpeg" :: "-y" :: "-i" :: input :: rest)].
Proof.
  unfold subprocess_run. unfold_M.
  case_decide as Hp; [|done].
  case_decide as Hy; [|done].
  destruct (last rest) as [out|] eqn:Hl; [|done].
  cbn [files log]. destruct (files w !! input) as [data|] eqn:Hin; [|done].
  destruct (ffmpeg_encode E _ out data) as [b|] eqn:He; [|done].
  intros [= <-]. exists out, data, b. done.
Qed.

(** The three templates of [convert_wav_bytes_with_ffmpeg]. *)
Lemma ffmpeg_cmd_Some f tmp out cmd :
  ffmpeg_cmd f tmp out = Some cmd →
  ∃ opts, cmd = "ffmpeg" :: "-y" :: "-i" :: tmp :: opts ++ [out] ∧
    (f = "wav" ∧ opts = ["-c:a"; "pcm_s16le"] ∨
     f = "mp3" ∧ opts = ["-codec:a"; "libmp3lame"; "-q:a"; "2"] ∨
     f = "ogg" ∧ opts = ["-codec:a"; "libvorbis"; "-q:a"; "5"]).
Proof.
  unfold ffmpeg_cmd. repeat case_decide; intros [= <-].
  - exists ["-c:a"; "pcm_s16le"]. auto.
  - exists ["-codec:a"; "libmp3lame"; "-q:a"; "2"]. auto.
  - exists ["-codec:a"; "libvorbis"; "-q:a"; "5"]. auto.
Qed.

(** A conversion sends no request and never exits the script. *)
Lemma convert_spec E wav out f del w r w' :
  convert_wav_bytes_with_ffmpeg E wav out f del w = (r, w') →
  not_exit r ∧ extends w w' [].
Proof.
  unfold convert_wav_bytes_with_ffmpeg. unfold_M.
  set (tmp := mkstemp_name E ".wav" (dom (files w))).
  destruct (ffmpeg_cmd f tmp out) as [cmd|].
  - destruct (subprocess_run E cmd _) as [r1 w1] eqn:Hrun.
    apply subprocess_run_spec in Hrun as (Hne & Hlog & _). cbn in Hlog.
    destruct r1 as [[]| |]; [|done|];
      destruct (del && _); intros [= <- <-]; (split; [done|]);
      exists [Run cmd]; cbn; rewrite Hlog; by repeat constructor.
  - destruct (del && _); intros [= <- <-]; (split; [done|]);
      by apply extends_log.
Qed.

(** A conversion that succeeds, with the temporary file under a new name
    other than the output: the output file is the only change on disk. *)
Lemma convert_ok E wav out f w w' :
  let tmp := mkstemp_name E ".wav" (dom (files w)) in
  convert_wav_bytes_with_ffmpeg E wav out f true w = (Ok (), w') →
  tmp ∉ dom (files w) → tmp ≠ out →
  ∃ cmd opts b,
    ffmpeg_cmd f tmp out = Some cmd ∧
    cmd = "ffmpeg" :: "-y" :: "-i" :: tmp :: opts ++ [out] ∧
    ffmpeg_encode E opts out wav = Some b ∧
    files w' = <[out := b]> (files w) ∧
    log w' = log w ++ [Run cmd].
Proof.
  intros tmp. unfold convert_wav_bytes_with_ffmpeg. unfold_M. fold tmp.
  destruct (ffmpeg_cmd f tmp out) as [cmd|] eqn:Hcmd.
  2:{ destruct (true && _); intros [= <-]. }
  destruct (ffmpeg_cmd_Some _ _ _ _ Hcmd) as (opts & -> & _).
  destruct (subprocess_run E _ _) as [r1 w1] eqn:Hrun.
  destruct r1 as [[]| |]; [|destruct (true && _); done..].
  apply ffmpeg_convert_ok in Hrun as (o & data & b & Hl & Hin & He & Hf & Hlog).
  cbn [files log] in *.
  rewrite last_snoc in Hl. injection Hl as <-.
  rewrite lookup_insert_eq in Hin. injection Hin as <-.
  rewrite length_app, Nat.add_sub, take_app_length in He.
  intros Hres Hfresh Hne.
  assert (Hex : bool_decide (is_Some (files w1 !! tmp)) = true).
  { apply bool_decide_eq_true. rewrite Hf.
    rewrite lookup_insert_ne, lookup_insert_eq by done. eauto. }
  rewrite Hex in Hres. cbn in Hres. injection Hres as <-.
  exists ("ffmpeg" :: "-y" :: "-i" :: tmp :: opts ++ [out]), opts, b.
  cbn [files log]. repeat split; try done.
  rewrite Hf. rewrite insert_insert_eq.
  rewrite delete_insert_ne by done.
  rewrite delete_insert_eq.
  f_equal. apply delete_id. by apply not_elem_of_dom.
Qed.

(** Writing the output of a row sends no request and never exits. *)
Lemma write_output_spec E args row_id wav w r w' :
  write_output E args row_id wav w = (r, w') →
  not_exit r ∧ extends w w' [].
Proof.
  unfold write_output, write_direct_wav.
  destruct (bool_decide (fmt args = Wav) && negb (use_ffmpeg args)).
  { unfold_M. intros [= <- <-]. split; [done|].
    by eapply (extends_one _ _ (Stdout _)). }
  destruct (bool_decide (fmt args = Wav) && use_ffmpeg args).
  { cbv beta iota zeta delta [mbind M_bind].
    destruct (convert_wav_bytes_with_ffmpeg E _ _ _ _ w) as [r1 w1] eqn:Hc.
    apply convert_spec in Hc as [Hne Hext].
    destruct r1 as [[]| |]; [|done|intros [= <- <-]; done].
    unfold_M. intros [= <- <-]. split; [done|].
    eapply (extends_trans _ _ _ [] []); [exact Hext|].
    by eapply (extends_one _ _ (Stdout _)). }
  destruct (delete_original_wav args).
  { cbv beta iota zeta delta [mbind M_bind].
    destruct (convert_wav_bytes_with_ffmpeg E _ _ _ _ w) as [r1 w1] eqn:Hc.
    apply convert_spec in Hc as [Hne Hext].
    destruct r1 as [[]| |]; [|done|intros [= <- <-]; done].
    unfold_M. intros [= <- <-]. split; [done|].
    eapply (extends_trans _ _ _ [] []); [exact Hext|].
    by eapply (extends_one _ _ (Stdout _)). }
  unfold_M.
  destruct (subprocess_run E _ _) as [r1 w1] eqn:Hrun.
  apply subprocess_run_spec in Hrun as (Hne & Hlog & _). cbn in Hlog.
  assert (Hext : extends w w1 []) by by eapply (extends_one _ _ (Run _)).
  destruct r1 as [[]| |]; [|done|intros [= <- <-]; done].
  intros [= <- <-]. split; [done|].
  eapply (extends_trans _ _ _ [] []); [exact Hext|].
  by eapply (extends_one _ _ (Stdout _)).
Qed.

(** ** The row loop *)

Lemma row_body_spec E args wanted r st w res w' :
  row_body E args wanted r st w = (res, w') →
  not_exit res ∧
  extends w w' (if eligible args wanted r then [request_of args r] else []) ∧
  (eligible args wanted r = false → files w' = files w ∧ ∃ st', res = Ok st') ∧
  (∀ st', res = Ok st' →
     generated st' =
       generated st + (if eligible args wanted r then 1 else 0) ∧
     skipped st' =
       skipped st + (if skip_counted args wanted r then 1 else 0) ∧
     seen_ids st' =
       seen_ids st ∪ (if PyStr.nonempty (row_id_of args r)
                      then {[row_id_of args r]} else ∅)).
Proof.
  unfold row_body, eligible, skip_counted.
  destruct (PyStr.nonempty (row_id_of args r)); cbn [negb andb orb].
  2:{ unfold_M. intros [= <- <-]. split; [done|]. split; [apply extends_refl|].
      split; [eauto|]. intros st' [= <-]. cbn.
      rewrite Nat.add_0_r, Nat.add_1_r. split; [done|]. split; [done|].
      by rewrite (right_id_L ∅ (∪)). }
  destruct (filtered_out wanted (row_id_of args r)); cbn [negb andb orb].
  { unfold_M. intros [= <- <-]. split; [done|]. split; [apply extends_refl|].
    split; [eauto|]. intros st' [= <-]. cbn. by rewrite !Nat.add_0_r. }
  destruct (PyStr.nonempty (ssml_of args r)); cbn [negb andb orb].
  2:{ unfold_M. intros [= <- <-]. split; [done|].
      split; [by eapply (extends_one _ _ (Stdout _))|].
      split; [eauto|]. intros st' [= <-]. cbn.
      by rewrite Nat.add_0_r, Nat.add_1_r. }
  cbv beta iota zeta delta [mbind M_bind].
  destruct (synthesize_ssml_wav E _ _ _ _ w) as [r1 w1] eqn:Hs.
  apply synthesize_spec in Hs as (Hne1 & _ & Hlog1).
  assert (Hext1 : extends w w1 [request_of args r])
    by by eapply (extends_one _ _ (Post _ _)).
  destruct r1 as [wav| |]; [|done|intros [= <- <-]; done].
  destruct (write_output E args _ wav w1) as [r2 w2] eqn:Ho.
  apply write_output_spec in Ho as (Hne2 & Hext2).
  pose proof (extends_trans _ _ _ _ _ Hext1 Hext2) as Hext.
  destruct r2 as [[]| |]; [|done|intros [= <- <-]; done].
  unfold_M. intros [= <- <-]. split; [done|]. split; [done|].
  split; [done|]. intros st' [= <-]. cbn.
  by rewrite Nat.add_0_r, Nat.add_1_r.
Qed.

Lemma filter_bool_cons {A} (p : A → bool) x l :
  filter (λ y, p y) (x :: l) =
  if p x then x :: filter (λ y, p y) l else filter (λ y, p y) l.
Proof.
  rewrite filter_cons. destruct (p x) eqn:Hp.
  - by rewrite decide_True.
  - rewrite decide_False; [done|]. by intros [].
Qed.

Lemma for_rows_spec E args wanted rows st w res w' :
  for_rows (row_body E args wanted) rows st w = (res, w') →
  not_exit res ∧
  (∃ ps, extends w w' ps ∧
     ps `prefix_of`
       (request_of args <$> filter (λ r, eligible args wanted r) rows) ∧
     (∀ st', res = Ok st' →
        ps = request_of args <$> filter (λ r, eligible args wanted r) rows)) ∧
  (∀ st', res = Ok st' →
     generated st' =
       generated st + length (filter (λ r, eligible args wanted r) rows) ∧
     skipped st' =
       skipped st + length (filter (λ r, skip_counted args wanted r) rows) ∧
     seen_ids st' = seen_ids st ∪ ids_seen args rows).
Proof.
  revert st w. induction rows as [|r rows IH]; intros st w.
  { cbn. unfold_M. intros [= <- <-]. split; [done|]. split.
    - exists []. split; [apply extends_refl|]. split; [done|]. done.
    - intros st' [= <-]. rewrite !Nat.add_0_r. unfold ids_seen. cbn.
      by rewrite (right_id_L ∅ (∪)). }
  cbn [for_rows]. cbv beta iota zeta delta [mbind M_bind].
  destruct (row_body E args wanted r st w) as [r1 w1] eqn:Hb.
  apply row_body_spec in Hb as (Hne1 & Hext1 & _ & Hst1).
  rewrite !filter_bool_cons. unfold ids_seen. rewrite fmap_cons.
  rewrite (filter_bool_cons PyStr.nonempty).
  destruct r1 as [st1| |]; [|done|].
  2:{ intros [= <- <-]. split; [done|]. split; [|done].
      eexists. split; [exact Hext1|]. split; [|done].
      destruct (eligible args wanted r).
      - rewrite fmap_cons. apply prefix_cons, prefix_nil.
      - apply prefix_nil. }
  destruct (Hst1 st1 eq_refl) as (Hg1 & Hs1 & Hi1).
  intros Hloop. apply IH in Hloop as (Hne & (ps & Hext & Hpre & Hall) & Hst).
  split; [done|]. split.
  - eexists. split; [exact (extends_trans _ _ _ _ _ Hext1 Hext)|].
    destruct (eligible args wanted r).
    + rewrite fmap_cons. split; [by apply prefix_cons|].
      intros st' Hr. cbn. f_equal. eauto.
    + cbn. split; [done|]. eauto.
  - intros st' Hr. destruct (Hst st' Hr) as (Hg & Hs & Hi).
    rewrite Hg, Hs, Hi, Hg1, Hs1, Hi1.
    destruct (eligible args wanted r), (skip_counted args wanted r),
      (PyStr.nonempty (row_id_of args r));
      cbn [length list_to_set]; (split; [lia|]); (split; [lia|]);
      fold (ids_seen args rows);
      first [by rewrite (assoc_L (∪)) | by rewrite (right_id_L ∅ (∪))].
Qed.

(** ** The shape of a run *)

Lemma ffmpeg_exists_spec E w :
  ffmpeg_exists E w =
  (Ok (ffmpeg_installed E), add_log w [Run ["ffmpeg"; "-version"]]).
Proof.
  unfold ffmpeg_exists, subprocess_run, add_log. unfold_M.
  destruct (ffmpeg_installed E).
  - rewrite decide_True by done. by rewrite decide_True.
  - rewrite decide_False; [done|]. by intros [_ ?].
Qed.

(** [main], one decision at a time. *)
Lemma main_cases E args w :
  main E args w =
  match dataset E (csv args) with
  | None => (Exit 1, add_log w [Stderr (CsvNotFound (csv args))])
  | Some (fieldnames, rows) =>
      if lossy (fmt args) && negb (use_ffmpeg args) then
        (Exit 2, add_log w [Stderr NeedFfmpeg])
      else if use_ffmpeg args && negb (ffmpeg_installed E) then
        (Exit 3, add_log w [Run ["ffmpeg"; "-version"]; Stderr FfmpegMissing])
      else
        let w0 := after_checks args w in
        if decide (fieldnames = []) then (Raise EmptyCsv, w0)
        else if decide (id_col args ∈ fieldnames) then
          if decide (ssml_col args ∈ fieldnames) then
            match
              for_rows (row_body E args (parse_ids (ids args))) rows
                init_state w0
            with
            | (Ok st, w1) =>
                (Ok (),
                 add_log w1 (closing_report (parse_ids (ids args)) st))
            | (Exit c, w1) => (Exit c, w1)
            | (Raise e, w1) => (Raise e, w1)
            end
          else (Raise (MissingSsmlCol (ssml_col args) fieldnames), w0)
        else (Raise (MissingIdCol (id_col args) fieldnames), w0)
  end.
Proof.
  unfold main. destruct (dataset E (csv args)) as [[fieldnames rows]|].
  2:{ by unfold_M. }
  cbv beta iota zeta delta [mbind M_bind mkdir_parents mret M_ret].
  destruct (lossy (fmt args) && negb (use_ffmpeg args)).
  { by unfold_M. }
  unfold after_checks.
  destruct (use_ffmpeg args); cbn [andb].
  - cbv beta iota zeta delta [mbind M_bind]. rewrite ffmpeg_exists_spec.
    destruct (ffmpeg_installed E); cbn [negb].
    2:{ unfold_M. unfold add_log. cbn. by rewrite <-(assoc_L (++)). }
    cbv beta iota zeta delta [mret M_ret].
    repeat case_decide; try by unfold_M.
    destruct (for_rows _ rows init_state _) as [[st| |] w1]; try done.
    unfold closing_report, add_log.
    destruct (parse_ids (ids args)) as [W|]; [|by unfold_M].
    destruct (not_found_ids W (seen_ids st)); unfold_M; cbn;
      by rewrite <-?(assoc_L (++)).
  - cbv beta iota zeta delta [mret M_ret].
    repeat case_decide; try by unfold_M.
    destruct (for_rows _ rows init_state _) as [[st| |] w1]; try done.
    unfold closing_report, add_log.
    destruct (parse_ids (ids args)) as [W|]; [|by unfold_M].
    destruct (not_found_ids W (seen_ids st)); unfold_M; cbn;
      by rewrite <-?(assoc_L (++)).
Qed.

(** ** Configuration checks *)



(** C5.  When mp3 or ogg is requested without [--use-ffmpeg], the run ends
    in [sys.exit] (code 1 when the dataset is missing as well, code 2
    otherwise) and has sent no request and written no file. *)
Theorem lossy_without_ffmpeg_exits_before_any_request E args w :
  lossy (fmt args) = true → use_ffmpeg args = false →
  ((main E args w).1 = Exit 1 ∨ (main E args w).1 = Exit 2) ∧
  posts (log (main E args w).2) = posts (log w) ∧
  files (main E args w).2 = files w.
Proof.
  intros Hl Hu. rewrite main_cases, Hl, Hu.
  destruct (dataset E (csv args)) as [[fieldnames rows]|]; cbn;
    rewrite posts_app; cbn; rewrite app_nil_r; auto.
Qed.

Lemma lossy_without_ffmpeg_witness :
  ((main (Demo.env true Demo.rows123) (Demo.args Ogg false false None)
         empty_world).1 = Exit 1 ∨
   (main (Demo.env true Demo.rows123) (Demo.args Ogg false false None)
         empty_world).1 = Exit 2) ∧
  posts (log (main (Demo.env true Demo.rows123)
                (Demo.args Ogg false false None) empty_world).2) =
    posts (log empty_world) ∧
  files (main (Demo.env true Demo.rows123)
           (Demo.args Ogg false false None) empty_world).2 =
    files empty_world.
Proof.
  apply (lossy_without_ffmpeg_exits_before_any_request
           (Demo.env true Demo.rows123) (Demo.args Ogg false false None));
    reflexivity.
Defined.

(** ** Missing columns *)

(** A header without the markup column: the run ends in an uncaught
    [KeyError], not in [sys.exit] with a code of its own. *)
Lemma missing_column_is_not_an_exit_code :
  let args :=
    {| api_key := "KEY"; csv := "transcripts.csv"; outdir := "out_audio";
       ids := None; id_col := "id"; ssml_col := "text";
       voice := "en-GB-Chirp3-HD-Leda"; lang := "en-GB";
       fmt := Wav; use_ffmpeg := false; delete_original_wav := false |} in
  ("text" ∉ ["id"; "ssml"]) ∧
  (main (Demo.env true Demo.rows123) args empty_world).1 =
    Raise (MissingSsmlCol "text" ["id"; "ssml"]) ∧
  ¬ ∃ c, (main (Demo.env true Demo.rows123) args empty_world).1 = Exit c.
Proof.
  cbv zeta. split; [|split].
  - intros H. by repeat (apply elem_of_cons in H as [?|H]; [done|]);
      apply elem_of_nil in H.
  - vm_compute. reflexivity.
  - intros [c H]. vm_compute in H. discriminate H.
Qed.

(** C3, as the code has it.  When the header lacks the id column or the
    markup column and the three configuration checks pass, the run stops
    before it reads a row: it raises ([RuntimeError] for an empty header,
    otherwise [KeyError] for the id column first, then for the markup
    column), it has sent no request and written no file, and it is not a
    [sys.exit]. *)
Theorem missing_column_raises_before_any_row E args w fieldnames rows :
  dataset E (csv args) = Some (fieldnames, rows) →
  (lossy (fmt args) && negb (use_ffmpeg args)) = false →
  (use_ffmpeg args && negb (ffmpeg_installed E)) = false →
  id_col args ∉ fieldnames ∨ ssml_col args ∉ fieldnames →
  (main E args w).1 =
    Raise (if decide (fieldnames = []) then EmptyCsv
           else if decide (id_col args ∈ fieldnames)
                then MissingSsmlCol (ssml_col args) fieldnames
                else MissingIdCol (id_col args) fieldnames) ∧
  posts (log (main E args w).2) = posts (log w) ∧
  files (main E args w).2 = files w.
Proof.
  intros Hd Hc2 Hc3 Hcol. rewrite main_cases, Hd, Hc2, Hc3.
  assert (Hp : posts (log (after_checks args w)) = posts (log w)).
  { unfold after_checks. destruct (use_ffmpeg args); [|done].
    cbn. rewrite posts_app. cbn. by rewrite app_nil_r. }
  assert (Hf : files (after_checks args w) = files w).
  { unfold after_checks. by destruct (use_ffmpeg args). }
  cbv zeta. repeat case_decide; try done. by destruct Hcol.
Qed.

Lemma missing_column_raises_witness :
  (main (Demo.env true Demo.rows123)
     {| api_key := "KEY"; csv := "transcripts.csv"; outdir := "out_audio";
        ids := None; id_col := "ident"; ssml_col := "ssml";
        voice := "en-GB-Chirp3-HD-Leda"; lang := "en-GB";
        fmt := Mp3; use_ffmpeg := true; delete_original_wav := false |}
     empty_world).1 = Raise (MissingIdCol "ident" ["id"; "ssml"]).
Proof.
  refine (proj1 (missing_column_raises_before_any_row
    (Demo.env true Demo.rows123)
    {| api_key := "KEY"; csv := "transcripts.csv"; outdir := "out_audio";
       ids := None; id_col := "ident"; ssml_col := "ssml";
       voice := "en-GB-Chirp3-HD-Leda"; lang := "en-GB";
       fmt := Mp3; use_ffmpeg := true; delete_original_wav := false |}
    empty_world ["id"; "ssml"] Demo.rows123 eq_refl eq_refl eq_refl _)).
  left. cbn. intros H.
  by repeat (apply elem_of_cons in H as [?|H]; [done|]);
    apply elem_of_nil in H.
Defined.

(** ** Runs that reach the row loop *)

Lemma eligible_spec args wanted r :
  eligible args wanted r = true ↔
  row_id_of args r ≠ "" ∧ ssml_of args r ≠ "" ∧
  match wanted with Some W => row_id_of args r ∈ W | None => True end.
Proof.
  unfold eligible, filtered_out.
  destruct (row_id_of args r), (ssml_of args r), wanted as [W|]; cbn;
    try case_bool_decide; cbn; try tauto; try (split; [done|tauto]).
  all: split; [intros _; repeat split; try done|done].
  all: by destruct (decide (String a s ∈ W)).
Qed.

Lemma skip_counted_spec args wanted r :
  skip_counted args wanted r = true ↔
  row_id_of args r = "" ∨
  (ssml_of args r = "" ∧
   match wanted with Some W => row_id_of args r ∈ W | None => True end).
Proof.
  unfold skip_counted, filtered_out.
  destruct (row_id_of args r), (ssml_of args r), wanted as [W|]; cbn;
    try case_bool_decide; cbn; try tauto; try (split; [done|tauto]).
  all: try (split; [done|]; intros [|[]]; done).
  all: split; [intros _; right; split; [done|]|done].
  all: by destruct (decide (String a s ∈ W)).
Qed.

Lemma elem_of_ids_seen args rows x :
  x ∈ ids_seen args rows ↔ x ≠ "" ∧ ∃ r, r ∈ rows ∧ row_id_of args r = x.
Proof.
  unfold ids_seen. rewrite elem_of_list_to_set, list_elem_of_filter.
  rewrite list_elem_of_fmap. split.
  - intros [Hne (r & -> & Hr)]. split; [|eauto].
    intros Heq. by rewrite Heq in Hne.
  - intros [Hne (r & Hr & <-)]. split; [|eauto].
    by destruct (row_id_of args r).
Qed.

(** What a run that got past the checks and the header has sent, whatever
    its end: the requests of eligible rows, in file order, up to the row
    where it stopped. *)
Lemma main_requests E args w fieldnames rows :
  dataset E (csv args) = Some (fieldnames, rows) →
  ∃ ps, posts (log (main E args w).2) = posts (log w) ++ ps ∧
    ps `prefix_of`
      (request_of args <$>
         filter (λ r, eligible args (parse_ids (ids args)) r) rows).
Proof.
  intros Hd. rewrite main_cases, Hd.
  assert (Hp : posts (log (after_checks args w)) = posts (log w)).
  { unfold after_checks. destruct (use_ffmpeg args); [|done].
    cbn. rewrite posts_app. cbn. by rewrite app_nil_r. }
  assert (Hnil : ∀ l, posts l = posts (log w) →
    ∃ ps, posts l = posts (log w) ++ ps ∧
      ps `prefix_of`
        (request_of args <$>
           filter (λ r, eligible args (parse_ids (ids args)) r) rows)).
  { intros l Hl. exists []. rewrite app_nil_r. split; [done|apply prefix_nil]. }
  destruct (lossy (fmt args) && negb (use_ffmpeg args)).
  { apply Hnil. cbn. rewrite posts_app. cbn. by rewrite app_nil_r. }
  destruct (use_ffmpeg args && negb (ffmpeg_installed E)).
  { apply Hnil. cbn. rewrite posts_app. cbn. by rewrite app_nil_r. }
  cbv zeta. repeat case_decide; try by apply Hnil.
  destruct (for_rows _ rows init_state _) as [r1 w1] eqn:Hloop.
  apply for_rows_spec in Hloop
    as (Hne & (ps & (new & Hlog & _ & Hps) & Hpre & _) & _).
  exists ps. split; [|done].
  assert (posts (log w1) = posts (log w) ++ ps) as Hw1
    by by rewrite Hlog, posts_app, Hp, Hps.
  destruct r1 as [st| |]; cbn [snd]; try done.
  cbn [add_log log]. rewrite posts_app, Hw1. unfold closing_report.
  destruct (parse_ids (ids args)) as [W|]; [|by rewrite app_nil_r].
  destruct (not_found_ids W (seen_ids st)); cbn; by rewrite app_nil_r.
Qed.

(** What a run that ended normally has done: the events of the loop, with
    one request per eligible row, then the closing report with the two
    counters. *)
Lemma main_ok E args w fieldnames rows :
  dataset E (csv args) = Some (fieldnames, rows) →
  (main E args w).1 = Ok () →
  let wanted := parse_ids (ids args) in
  ∃ st new,
    generated st = length (filter (λ r, eligible args wanted r) rows) ∧
    skipped st = length (filter (λ r, skip_counted args wanted r) rows) ∧
    seen_ids st = ids_seen args rows ∧
    log (main E args w).2 = log w ++ new ++ closing_report wanted st ∧
    Forall loop_event new ∧
    posts new = request_of args <$> filter (λ r, eligible args wanted r) rows.
Proof.
  intros Hd. rewrite main_cases, Hd. cbv zeta.
  destruct (lossy (fmt args) && negb (use_ffmpeg args)); [done|].
  destruct (use_ffmpeg args && negb (ffmpeg_installed E)); [done|].
  repeat case_decide; try done.
  destruct (for_rows _ rows init_state _) as [r1 w1] eqn:Hloop.
  apply for_rows_spec in Hloop
    as (Hne & (ps & (new & Hlog & Hev & Hps) & _ & Hall) & Hst).
  destruct r1 as [st| |]; [|done..]. intros _.
  destruct (Hst st eq_refl) as (Hg & Hs & Hi). cbn in Hg, Hs, Hi.
  rewrite (left_id_L ∅ (∪)) in Hi.
  specialize (Hall st eq_refl). rewrite Hall in Hps.
  assert (∃ pre, log (after_checks args w) = log w ++ pre ∧
            Forall loop_event pre ∧ posts pre = []) as (pre & Hpre & Fpre & Ppre).
  { unfold after_checks. destruct (use_ffmpeg args).
    - eexists. split; [reflexivity|]. by repeat constructor.
    - exists []. by rewrite app_nil_r. }
  exists st, (pre ++ new). cbn [snd add_log log].
  rewrite Hlog, Hpre, posts_app, Ppre, Hps, <-!(assoc_L (++)).
  repeat split; try done. by apply Forall_app.
Qed.

Lemma parse_ids_no_empty_id a W : parse_ids a = Some W → "" ∉ W.
Proof.
  unfold parse_ids. destruct a as [[|c s]|]; [done| |done].
  set (parts := filter _ _).
  assert (Hne : "" ∉ (list_to_set parts : gset string)).
  { unfold parts. rewrite elem_of_list_to_set, list_elem_of_filter.
    by intros [? _]. }
  destruct parts; [done|]. by intros [= <-].
Qed.

Lemma elem_of_not_found_ids W seen x :
  x ∈ not_found_ids W seen ↔ x ∈ W ∧ x ∉ seen.
Proof.
  unfold not_found_ids. rewrite merge_sort_Permutation.
  by rewrite elem_of_elements, elem_of_difference.
Qed.

Lemma closing_report_last wanted st :
  last (closing_report wanted st) =
  Some (Stdout (DoneMsg (generated st) (skipped st))).
Proof. unfold closing_report. apply last_snoc. Qed.

Lemma closing_report_not_found wanted st nf :
  Stdout (IdsNotFound nf) ∈ closing_report wanted st ↔
  ∃ W, wanted = Some W ∧ nf = not_found_ids W (seen_ids st) ∧ nf ≠ [].
Proof.
  unfold closing_report. rewrite elem_of_app, list_elem_of_singleton.
  destruct wanted as [W|].
  - destruct (not_found_ids W (seen_ids st)) as [|x l] eqn:Hnf.
    + split; [intros [[]%elem_of_nil|[=]]|].
      intros (W' & [= <-] & -> & ?). by rewrite Hnf in *.
    + rewrite list_elem_of_singleton. split.
      * intros [[= ->]|[=]]. exists W. by rewrite Hnf.
      * intros (W' & [= <-] & -> & _). left. by rewrite Hnf.
  - split; [intros [[]%elem_of_nil|[=]]|]. by intros (W' & [=] & _).
Qed.

(** ** Skipped rows *)

(** A row with empty markup whose id is outside the id filter is passed
    over without being counted: the run reports [Skipped: 0]. *)
Lemma filtered_empty_markup_row_is_not_counted :
  let rows :=
    [Demo.mk_row "1" ""; Demo.mk_row "2" "<speak>two</speak>"] in
  let args := Demo.args Wav false false (Some "2") in
  ssml_of args (Demo.mk_row "1" "") = "" ∧
  (main (Demo.env true rows) args empty_world).1 = Ok () ∧
  printed (log (main (Demo.env true rows) args empty_world).2) =
    [Wrote "out_audio/2.wav"; DoneMsg 1 0].
Proof. cbv zeta. repeat split; vm_compute; reflexivity. Qed.

(** C6, as the code has it.  A request is only ever sent for a row whose id
    and markup are both non-empty, whatever the id filter and however the
    run ends.  A run that reads every row reports as skipped the rows whose
    id is empty and the rows with empty markup that pass the id filter (all
    rows with empty markup when there is no filter); a row with empty markup
    whose id is outside the filter is passed over and not counted. *)
Theorem empty_rows_are_never_submitted E args w fieldnames rows :
  dataset E (csv args) = Some (fieldnames, rows) →
  let wanted := parse_ids (ids args) in
  (∃ ps, posts (log (main E args w).2) = posts (log w) ++ ps ∧
     ∀ req, req ∈ ps →
       ∃ r, r ∈ rows ∧ req = request_of args r ∧
            row_id_of args r ≠ "" ∧ ssml_of args r ≠ "") ∧
  ((main E args w).1 = Ok () →
   last (log (main E args w).2) =
     Some (Stdout (DoneMsg
       (length (filter (λ r, eligible args wanted r) rows))
       (length (filter (λ r, skip_counted args wanted r) rows))))) ∧
  (∀ r, skip_counted args wanted r = true ↔
     row_id_of args r = "" ∨
     (ssml_of args r = "" ∧
      match wanted with Some W => row_id_of args r ∈ W | None => True end)).
Proof.
  intros Hd wanted. split; [|split].
  - destruct (main_requests E args w _ _ Hd) as (ps & Hps & Hpre).
    exists ps. split; [done|]. intros req Hreq.
    eapply elem_of_prefix in Hreq; [|exact Hpre].
    apply list_elem_of_fmap in Hreq as (r & -> & Hr).
    apply list_elem_of_filter in Hr as [He Hr].
    apply Is_true_true, eligible_spec in He as (? & ? & _). eauto.
  - intros Hok.
    destruct (main_ok E args w _ _ Hd Hok)
      as (st & new & Hg & Hs & _ & Hlog & _).
    rewrite Hlog, !last_app, closing_report_last. fold wanted.
    by rewrite Hg, Hs.
  - intros r. apply skip_counted_spec.
Qed.

Lemma empty_rows_are_never_submitted_witness :
  let rows :=
    [Demo.mk_row "" "<speak>x</speak>"; Demo.mk_row "7" "  ";
     Demo.mk_row "8" "<speak>eight</speak>"] in
  let args := Demo.args Wav false false None in
  (main (Demo.env true rows) args empty_world).1 = Ok () ∧
  last (log (main (Demo.env true rows) args empty_world).2) =
    Some (Stdout (DoneMsg 1 2)).
Proof.
  cbv zeta. split; [vm_compute; reflexivity|].
  refine (proj1 (proj2 (empty_rows_are_never_submitted
    (Demo.env true
       [Demo.mk_row "" "<speak>x</speak>"; Demo.mk_row "7" "  ";
        Demo.mk_row "8" "<speak>eight</speak>"])
    (Demo.args Wav false false None) empty_world ["id"; "ssml"] _ eq_refl)) _).
  vm_compute. reflexivity.
Defined.

(** ** The id filter *)

(** C7.  With an id filter [W], a run that reads every row sends requests
    for exactly the rows whose id is in [W] (and whose markup is not empty),
    in file order; the ids it then reports as not found are exactly the ids
    of [W] that are the id of no row, and they are reported in sorted
    order. *)
Theorem id_filter_restricts_and_reports E args w fieldnames rows W :
  dataset E (csv args) = Some (fieldnames, rows) →
  parse_ids (ids args) = Some W →
  (main E args w).1 = Ok () →
  ∃ new, log (main E args w).2 = log w ++ new ∧
    posts new =
      request_of args <$> filter (λ r, eligible args (Some W) r) rows ∧
    (∀ r, eligible args (Some W) r = true ↔
          row_id_of args r ∈ W ∧ ssml_of args r ≠ "") ∧
    (∀ x, (∃ nf, Stdout (IdsNotFound nf) ∈ new ∧ x ∈ nf) ↔
          x ∈ W ∧ ¬ ∃ r, r ∈ rows ∧ row_id_of args r = x) ∧
    (∀ nf, Stdout (IdsNotFound nf) ∈ new → Sorted String.le nf).
Proof.
  intros Hd HW Hok.
  destruct (main_ok E args w _ _ Hd Hok)
    as (st & new & _ & _ & Hseen & Hlog & Hev & Hposts).
  rewrite HW in *. pose proof (parse_ids_no_empty_id _ _ HW) as Hne.
  assert (Hrep : ∀ nf, Stdout (IdsNotFound nf) ∈ new ++ closing_report (Some W) st ↔
            nf = not_found_ids W (ids_seen args rows) ∧ nf ≠ []).
  { intros nf. rewrite elem_of_app, closing_report_not_found, Hseen. split.
    - intros [Hin|(W' & [= <-] & ? & ?)]; [|done].
      rewrite Forall_forall in Hev. by apply Hev in Hin.
    - intros [? ?]. right. eauto. }
  exists (new ++ closing_report (Some W) st).
  split; [done|]. split; [|split; [|split]].
  - rewrite posts_app, Hposts. unfold closing_report.
    destruct (not_found_ids W (seen_ids st)); cbn; by rewrite app_nil_r.
  - intros r. rewrite eligible_spec. split; [tauto|].
    intros [HinW ?]. repeat split; try done. by intros Heq; rewrite Heq in HinW.
  - intros x. split.
    + intros (nf & [-> _]%Hrep & Hx).
      apply elem_of_not_found_ids in Hx as [HxW Hx]. split; [done|].
      intros Hr. apply Hx, elem_of_ids_seen. split; [|done].
      by intros ->.
    + intros [HxW Hx].
      assert (Hin : x ∈ not_found_ids W (ids_seen args rows)).
      { apply elem_of_not_found_ids. split; [done|].
        intros [_ ?]%elem_of_ids_seen. done. }
      exists (not_found_ids W (ids_seen args rows)). split; [|done].
      apply Hrep. split; [done|]. intros Heq. rewrite Heq in Hin.
      by apply elem_of_nil in Hin.
  - intros nf [-> _]%Hrep. unfold not_found_ids. apply Sorted_merge_sort, _.
Qed.

(** The example of the specification: ids 1, 2, 3 in the dataset and the
    filter ["2,5"]. *)
Lemma id_filter_example :
  let E := Demo.env true Demo.rows123 in
  let args := Demo.args Wav false false (Some "2,5") in
  posts (log (main E args empty_world).2) =
    [request_of args (Demo.mk_row "2" "<speak>two</speak>")] ∧
  printed (log (main E args empty_world).2) =
    [Wrote "out_audio/2.wav"; IdsNotFound ["5"]; DoneMsg 1 0] ∧
  ∃ new, log (main E args empty_world).2 = log empty_world ++ new ∧
    posts new =
      request_of args <$>
        filter (λ r, eligible args (Some {["2"; "5"]}) r) Demo.rows123 ∧
    (∀ r, eligible args (Some {["2"; "5"]}) r = true ↔
          row_id_of args r ∈ ({["2"; "5"]} : gset string) ∧
          ssml_of args r ≠ "") ∧
    (∀ x, (∃ nf, Stdout (IdsNotFound nf) ∈ new ∧ x ∈ nf) ↔
          x ∈ ({["2"; "5"]} : gset string) ∧
          ¬ ∃ r, r ∈ Demo.rows123 ∧ row_id_of args r = x) ∧
    (∀ nf, Stdout (IdsNotFound nf) ∈ new → Sorted String.le nf).
Proof.
  cbv zeta. split; [vm_compute; reflexivity|].
  split; [vm_compute; reflexivity|].
  apply (id_filter_restricts_and_reports (Demo.env true Demo.rows123)
           (Demo.args Wav false false (Some "2,5")) empty_world
           ["id"; "ssml"] Demo.rows123 {["2"; "5"]}).
  - reflexivity.
  - vm_compute. reflexivity.
  - vm_compute. reflexivity.
Defined.

(** ** [parse_ids]: separators and tokens *)

Lemma string_app_cons c (a b : string) :
  String c a +:+ b = String c (a +:+ b).
Proof. reflexivity. Qed.

Lemma string_app_nil_r (a : string) : a +:+ "" = a.
Proof. induction a as [|c a IH]; [done|]. by rewrite string_app_cons, IH. Qed.

Lemma string_app_assoc (a b c : string) : (a +:+ b) +:+ c = a +:+ b +:+ c.
Proof.
  induction a as [|x a IH]; [done|]. by rewrite !string_app_cons, IH.
Qed.

Lemma split_aux_replace c s :
  PyStr.split_aux (PyStr.replace "," " " (String c s)) =
  if is_sep c
  then ("", id_words s)
  else (String c (PyStr.split_aux (PyStr.replace "," " " s)).1,
        (PyStr.split_aux (PyStr.replace "," " " s)).2).
Proof.
  unfold id_words, PyStr.split, is_sep. cbn [PyStr.replace PyStr.split_aux].
  destruct (PyStr.split_aux _) as [cur ws]. case_decide as Hc.
  - subst c. by rewrite bool_decide_eq_true_2.
  - by rewrite bool_decide_eq_false_2.
Qed.

Lemma id_words_sep s r : all_sep s = true → id_words (s +:+ r) = id_words r.
Proof.
  induction s as [|c s IH]; [done|]. cbn. intros [Hc Hs]%andb_prop.
  unfold id_words at 1, PyStr.split.
  rewrite string_app_cons, split_aux_replace, Hc. cbn. auto.
Qed.

Lemma split_aux_token t r :
  sep_free t = true →
  PyStr.split_aux (PyStr.replace "," " " (t +:+ r)) =
  (t +:+ (PyStr.split_aux (PyStr.replace "," " " r)).1,
   (PyStr.split_aux (PyStr.replace "," " " r)).2).
Proof.
  induction t as [|c t IH]; [by destruct (PyStr.split_aux _)|].
  cbn. intros [Hc Ht]%andb_prop.
  rewrite string_app_cons, split_aux_replace.
  apply negb_true_iff in Hc. rewrite Hc. by rewrite IH.
Qed.

Lemma id_words_item t s r :
  item_ok (t, s) → id_words (t +:+ s +:+ r) = t :: id_words r.
Proof.
  intros (Ht & Hf & Hs & Ha). cbn in *.
  unfold id_words at 1, PyStr.split. rewrite split_aux_token by done.
  destruct s as [|c s]; [done|]. cbn in Ha. apply andb_prop in Ha as [Hc Ha].
  rewrite string_app_cons, split_aux_replace, Hc. cbn [fst snd].
  rewrite id_words_sep, string_app_nil_r by done.
  by destruct t.
Qed.

Lemma id_words_final t :
  sep_free t = true → id_words t = match t with "" => [] | _ => [t] end.
Proof.
  intros Hf. unfold id_words, PyStr.split.
  rewrite <-(string_app_nil_r t) at 1. rewrite split_aux_token by done.
  cbn. rewrite string_app_nil_r. by destruct t.
Qed.

Lemma id_words_join lead items final :
  all_sep lead = true → Forall item_ok items → sep_free final = true →
  id_words (lead +:+ join_tokens items +:+ final) =
  items.*1 ++ match final with "" => [] | _ => [final] end.
Proof.
  intros Hl Hi Hf. rewrite id_words_sep by done. clear lead Hl.
  induction Hi as [|[t s] items Hts Hi IH]; [by apply id_words_final|].
  cbn [join_tokens].
  rewrite !string_app_assoc, id_words_item by done. cbn. by rewrite IH.
Qed.

Lemma split_aux_no_space s :
  no_space (PyStr.split_aux s).1 = true ∧
  Forall (λ t, t ≠ "" ∧ no_space t = true) (PyStr.split_aux s).2.
Proof.
  induction s as [|c s [IHc IHw]]; [by split|].
  cbn. destruct (PyStr.split_aux s) as [cur ws]. cbn in *.
  destruct (PyStr.isspace c) eqn:Hc; cbn.
  - split; [done|]. destruct cur; [done|]. by constructor.
  - by rewrite Hc, IHc.
Qed.

Lemma split_no_space s :
  Forall (λ t, t ≠ "" ∧ no_space t = true) (PyStr.split s).
Proof.
  unfold PyStr.split. pose proof (split_aux_no_space s) as [Hc Hw].
  destruct (PyStr.split_aux s) as [cur ws]. cbn in *.
  destruct cur; [done|]. by constructor.
Qed.

Lemma strip_no_space t : no_space t = true → PyStr.strip t = t.
Proof.
  unfold PyStr.strip. intros Ht.
  assert (PyStr.lstrip t = t) as ->.
  { destruct t as [|c t]; [done|]. cbn in *.
    by destruct (PyStr.isspace c). }
  induction t as [|c t IH]; [done|]. cbn in *.
  apply andb_prop in Ht as [Hc Ht]. rewrite IH by done.
  destruct t; [|done]. by destruct (PyStr.isspace c).
Qed.

(** [parse_ids] is the set of the words of its argument, [None] when there
    is no word. *)
Lemma parse_ids_words s :
  parse_ids (Some s) =
  match id_words s with [] => None | ws => Some (list_to_set ws) end.
Proof.
  assert (Hparts :
    filter (λ p, PyStr.nonempty p = true) (PyStr.strip <$> id_words s) =
    id_words s).
  { unfold id_words. induction (split_no_space (PyStr.replace "," " " s))
      as [|t ws [Ht Hn] _ IH]; [done|].
    rewrite fmap_cons, filter_cons, strip_no_space, IH by done.
    rewrite decide_True; [done|]. by destruct t. }
  unfold parse_ids. fold (id_words s). rewrite Hparts.
  destruct s as [|c s]; [reflexivity|].
  by destruct (id_words (String c s)).
Qed.

(** C10.  [parse_ids] on a string made of commas and whitespace only (the
    empty string included) is [None], so that every id passes the filter
    test and the run is the run without [--ids]: a run that reads every row
    sends a request for every row that has an id and markup, in file order.
    On a string with ids in it, separated by commas, whitespace or both,
    the result is the set of the ids, repeated or not. *)
Theorem parse_ids_separators_and_tokens :
  (∀ s, all_sep s = true →
     parse_ids (Some s) = None ∧
     (∀ row_id, filtered_out (parse_ids (Some s)) row_id = false) ∧
     (∀ E args w,
        main E (set_ids (Some s) args) w = main E (set_ids None args) w) ∧
     (∀ E args w fieldnames rows,
        dataset E (csv args) = Some (fieldnames, rows) →
        (main E (set_ids (Some s) args) w).1 = Ok () →
        ∃ new,
          log (main E (set_ids (Some s) args) w).2 = log w ++ new ∧
          posts new =
            request_of args <$>
              filter (λ r, PyStr.nonempty (row_id_of args r)
                           && PyStr.nonempty (ssml_of args r)) rows)) ∧
  (∀ lead items final,
     all_sep lead = true → Forall item_ok items → sep_free final = true →
     let tokens := items.*1 ++ match final with "" => [] | _ => [final] end in
     parse_ids (Some (lead +:+ join_tokens items +:+ final)) =
     match tokens with [] => None | _ => Some (list_to_set tokens) end).
Proof.
  split.
  - intros s Hs.
    assert (Hnone : parse_ids (Some s) = None).
    { rewrite parse_ids_words, <-(string_app_nil_r s).
      by rewrite id_words_sep. }
    split; [done|]. split; [by rewrite Hnone|]. split.
    { intros E args w. unfold main. cbn [set_ids ids csv outdir fmt use_ffmpeg
        id_col ssml_col]. rewrite Hnone.
      destruct (dataset E (csv args)) as [[fieldnames rows]|]; [|done].
      reflexivity. }
    intros E args w fieldnames rows Hd Hok.
    destruct (main_ok E (set_ids (Some s) args) w fieldnames rows Hd Hok)
      as (st & new & _ & _ & _ & Hlog & _ & Hposts).
    cbn [set_ids ids] in Hlog, Hposts. rewrite Hnone in Hlog, Hposts.
    exists (new ++ closing_report None st). split; [done|].
    rewrite posts_app, Hposts. cbn. rewrite app_nil_r.
    change (request_of (set_ids (Some s) args)) with (request_of args).
    f_equal. apply list_filter_iff. intros r.
    unfold eligible. cbn [filtered_out negb].
    change (row_id_of (set_ids (Some s) args) r) with (row_id_of args r).
    change (ssml_of (set_ids (Some s) args) r) with (ssml_of args r).
    by rewrite andb_true_r.
  - intros lead items final Hl Hi Hf tokens.
    rewrite parse_ids_words, id_words_join by done.
    subst tokens. by destruct (_ ++ _).
Qed.

Lemma parse_ids_example :
  parse_ids (Some " ,, ") = None ∧
  parse_ids (Some ", 7,3  7 ,12") = Some {["7"; "3"; "12"]} ∧
  ∃ new,
    log (main (Demo.env true Demo.rows123)
           (set_ids (Some " ,, ") (Demo.args Wav false false None))
           empty_world).2 = log empty_world ++ new ∧
    posts new =
      [request_of (Demo.args Wav false false None)
         (Demo.mk_row "1" "<speak>one</speak>");
       request_of (Demo.args Wav false false None)
         (Demo.mk_row "2" "<speak>two</speak>");
       request_of (Demo.args Wav false false None)
         (Demo.mk_row "3" "<speak>three</speak>")].
Proof.
  split; [|split].
  - apply (proj1 parse_ids_separators_and_tokens " ,, "). reflexivity.
  - refine (proj2 parse_ids_separators_and_tokens ", "
      [("7", ","); ("3", "  "); ("7", " ,")] "12" eq_refl _ eq_refl).
    repeat constructor; done.
  - refine (proj2 (proj2 (proj2
      (proj1 parse_ids_separators_and_tokens " ,, " eq_refl)))
      (Demo.env true Demo.rows123) (Demo.args Wav false false None)
      empty_world ["id"; "ssml"] Demo.rows123 eq_refl _).
    vm_compute. reflexivity.
Defined.

(** ** The remote call *)

(** A 200 response whose body has no ["audioContent"]: the call raises. *)
Lemma status_200_without_audio_raises :
  let resp := {| status_code := 200; text := "{}";
                 json_body := Some (JObj []) |} in
  let E := Demo.env_of (Demo.always resp) true [] in
  status_code resp = 200%Z ∧
  (synthesize_ssml_wav E "KEY" "en-GB-Chirp3-HD-Leda" "en-GB"
     "<speak>hi</speak>" empty_world).1 = Raise NoAudioContent ∧
  ¬ ∃ b, (synthesize_ssml_wav E "KEY" "en-GB-Chirp3-HD-Leda" "en-GB"
            "<speak>hi</speak>" empty_world).1 = Ok b.
Proof.
  cbv zeta. split; [done|]. split; [vm_compute; reflexivity|].
  intros [b H]. vm_compute in H. discriminate H.
Qed.

(** C9, as the code has it.  [synthesize_ssml_wav] sends exactly one
    request and touches no file.  It returns bytes only for a response with
    status 200, and then they are the base64 decoding of the string under
    ["audioContent"]; for a 200 response with such a body it does return
    them.  For a response with any other status it raises [TTSFailed] with
    the status and the body (the parsed JSON, or the raw text). *)
Theorem synthesize_contract E k v l s w :
  let url := tts_url k in
  let payload := tts_payload v l s in
  let r := (synthesize_ssml_wav E k v l s w).1 in
  let w' := (synthesize_ssml_wav E k v l s w).2 in
  log w' = log w ++ [Post url payload] ∧ files w' = files w ∧
  (∀ b, r = Ok b →
     ∃ resp j a, tts E url payload = Some resp ∧ status_code resp = 200%Z ∧
       json_body resp = Some j ∧
       json_getitem j "audioContent" = Some (JStr a) ∧
       b64decode E a = Some b) ∧
  (∀ resp j a b,
     tts E url payload = Some resp → status_code resp = 200%Z →
     json_body resp = Some j →
     json_getitem j "audioContent" = Some (JStr a) →
     b64decode E a = Some b → r = Ok b) ∧
  (∀ resp,
     tts E url payload = Some resp → status_code resp ≠ 200%Z →
     r = Raise (TTSFailed (status_code resp)
                  (default (JObj [("raw", JStr (text resp))])
                     (json_body resp)))).
Proof.
  cbv zeta.
  destruct (synthesize_ssml_wav E k v l s w) as [r w'] eqn:Hs.
  pose proof (synthesize_spec _ _ _ _ _ _ _ _ Hs) as (_ & Hf & Hl).
  split; [done|]. split; [done|]. cbn [fst snd].
  revert Hs. unfold synthesize_ssml_wav, requests_post. unfold_M.
  destruct (tts E _ _) as [resp|]; [|by intros [= <- <-]].
  assert (Hraise : ∀ (e : exn) (P : bytes → Prop),
    (status_code resp = 200%Z →
     ∀ j a b, json_body resp = Some j →
       json_getitem j "audioContent" = Some (JStr a) →
       b64decode E a = Some b → False) →
    (status_code resp ≠ 200%Z →
     e = TTSFailed (status_code resp)
           (default (JObj [("raw", JStr (text resp))]) (json_body resp))) →
    (∀ b, @Raise bytes e = Ok b → P b) ∧
    (∀ resp' j a b, Some resp = Some resp' → status_code resp' = 200%Z →
       json_body resp' = Some j →
       json_getitem j "audioContent" = Some (JStr a) →
       b64decode E a = Some b → @Raise bytes e = Ok b) ∧
    (∀ resp', Some resp = Some resp' → status_code resp' ≠ 200%Z →
       @Raise bytes e = Raise (TTSFailed (status_code resp')
         (default (JObj [("raw", JStr (text resp'))]) (json_body resp'))))).
  { intros e P H200 Hother. split; [done|]. split.
    - intros resp' j a b [= <-] ? ? ? ?. by destruct (H200 ltac:(done) j a b).
    - intros resp' [= <-] ?. by rewrite Hother. }
  case_decide as Hst.
  { intros [= <- _]. apply Hraise; [done|].
    intros _. by destruct (json_body resp). }
  destruct (json_body resp) as [j|] eqn:Hj;
    [|intros [= <- _]; by apply Hraise].
  destruct (json_getitem j "audioContent") as [[| | |a| |]|] eqn:Hg;
    try (intros [= <- _]; apply Hraise; [|done];
         intros _ j0 a0 b0 Hj0 Hg0 Hb0; congruence).
  destruct (b64decode E a) as [b|] eqn:Hb; intros [= <- _].
  - repeat split.
    + intros b' [= <-]. by exists resp, j, a.
    + intros resp' j0 a0 b0 [= <-] _ Hj0 Hg0 Hb0. congruence.
    + by intros ? [= <-].
  - apply Hraise; [|done]. intros _ j0 a0 b0 Hj0 Hg0 Hb0. congruence.
Qed.

Lemma synthesize_contract_witness :
  let resp := {| status_code := 403; text := "Forbidden";
                 json_body := None |} in
  let E := Demo.env_of (Demo.always resp) true [] in
  (synthesize_ssml_wav E "KEY" "en-GB-Chirp3-HD-Leda" "en-GB"
     "<speak>hi</speak>" empty_world).1 =
    Raise (TTSFailed 403 (JObj [("raw", JStr "Forbidden")])) ∧
  (synthesize_ssml_wav (Demo.env true []) "KEY" "en-GB-Chirp3-HD-Leda"
     "en-GB" "<speak>hi</speak>" empty_world).1 =
    Ok [Byte.x52; Byte.x49; Byte.x46; Byte.x46].
Proof.
  cbv zeta. split.
  - refine (proj2 (proj2 (proj2 (proj2 (synthesize_contract
      (Demo.env_of (Demo.always _) true []) "KEY" "en-GB-Chirp3-HD-Leda"
      "en-GB" "<speak>hi</speak>" empty_world)))) _ eq_refl _).
    done.
  - refine (proj1 (proj2 (proj2 (proj2 (synthesize_contract
      (Demo.env true []) "KEY" "en-GB-Chirp3-HD-Leda"
      "en-GB" "<speak>hi</speak>" empty_world)))) _
      (JObj [("audioContent", JStr "<speak>hi</speak>")])
      "<speak>hi</speak>" _ eq_refl eq_refl eq_refl eq_refl eq_refl).
Defined.

(** ** Output files *)

Lemma ffmpeg_cmd_format f tmp out :
  ffmpeg_cmd (format_str f) tmp out =
  Some ("ffmpeg" :: "-y" :: "-i" :: tmp :: template_opts f ++ [out]).
Proof. by destruct f. Qed.

Lemma string_length_app (a b : string) :
  String.length (a +:+ b) = String.length a + String.length b.
Proof.
  induction a as [|c a IH]; [done|]. rewrite string_app_cons. cbn. by rewrite IH.
Qed.

Lemma split_slash_free e : slash_free e = true → split_slash e = [e].
Proof.
  unfold slash_free. induction e as [|c e IH]; [done|]. cbn.
  intros [Hc He]%andb_prop. apply negb_true_iff in Hc. rewrite Hc.
  by rewrite IH.
Qed.

(** The components of a string followed by a slash-free tail: those of the
    string, with the tail at the end of the last one. *)
Lemma split_slash_tail s :
  ∃ L n, ∀ e, slash_free e = true → split_slash (s +:+ e) = L ++ [n +:+ e].
Proof.
  induction s as [|c s (L & n & IH)].
  { exists [], "". intros e He. by rewrite split_slash_free. }
  destruct (bool_decide (c = "/"%char)) eqn:Hc.
  - exists ("" :: L), n. intros e He.
    rewrite string_app_cons. cbn [split_slash]. by rewrite Hc, IH.
  - destruct L as [|h L].
    + exists [], (String c n). intros e He.
      rewrite string_app_cons. cbn [split_slash]. by rewrite Hc, IH.
    + exists (String c h :: L), n. intros e He.
      rewrite string_app_cons. cbn [split_slash]. by rewrite Hc, IH.
Qed.

(** The extension that the script adds to an id. *)
Lemma dot_ext_facts n f :
  slash_free ("." +:+ format_str f) = true ∧
  n +:+ "." +:+ format_str f ≠ "" ∧
  n +:+ "." +:+ format_str f ≠ "." ∧
  n +:+ "." +:+ format_str f ≠ "..".
Proof.
  split; [by destruct f|].
  assert (4 ≤ String.length (n +:+ "." +:+ format_str f)) as Hlen.
  { rewrite !string_length_app. destruct f; cbn; lia. }
  repeat split; intros Heq; rewrite Heq in Hlen; cbn in Hlen; lia.
Qed.

Lemma path_parts_tail s :
  ∃ P n, ∀ f, path_parts (s +:+ "." +:+ format_str f) =
              P ++ [n +:+ "." +:+ format_str f].
Proof.
  destruct (split_slash_tail s) as (L & n & HL).
  exists (filter (λ x, x ≠ "" ∧ x ≠ ".") L), n. intros f.
  destruct (dot_ext_facts n f) as (Hfree & Hne & Hdot & _).
  unfold path_parts. rewrite (HL _ Hfree), filter_app. f_equal.
  rewrite filter_cons, decide_True by done. done.
Qed.

Lemma is_absolute_ext s f g :
  is_absolute (s +:+ "." +:+ format_str f) =
  is_absolute (s +:+ "." +:+ format_str g).
Proof. destruct s; [by destruct f, g|done]. Qed.

Lemma path_root_ext s f g :
  path_root (s +:+ "." +:+ format_str f) =
  path_root (s +:+ "." +:+ format_str g).
Proof.
  destruct s as [|c1 [|c2 [|c3 s]]]; rewrite ?string_app_cons;
    cbn [path_root]; repeat case_bool_decide; try done;
    by destruct f, g.
Qed.

Lemma join_slash_snoc Q :
  ∃ pre, ∀ y, join_slash (Q ++ [y]) = pre +:+ y.
Proof.
  induction Q as [|q Q (pre & IH)].
  { exists "". done. }
  exists (q +:+ "/" +:+ pre). intros y.
  cbn [app join_slash]. rewrite IH, !string_app_assoc.
  by destruct (Q ++ [y]) eqn:Heq; [destruct Q|].
Qed.

Lemma path_str_snoc r Q :
  ∃ pre, ∀ y, y ≠ "" →
    path_str {| p_root := r; p_parts := Q ++ [y] |} = pre +:+ y.
Proof.
  destruct (join_slash_snoc Q) as (pre & Hpre).
  exists (r +:+ pre). intros y Hy. unfold path_str. cbn [p_root p_parts].
  rewrite string_app_assoc, <-Hpre.
  destruct r; [|done]. by destruct (Q ++ [y]) eqn:Heq; [destruct Q|].
Qed.

(** The path of a file of a row is a string that does not depend on the
    format, followed by the extension. *)
Lemma out_file_shape outdir row_id :
  ∃ S, ∀ f, out_file outdir row_id (format_str f) = S +:+ "." +:+ format_str f.
Proof.
  destruct (path_parts_tail row_id) as (P & n & HP).
  unfold out_file, path_join, truediv.
  destruct (is_absolute (row_id +:+ "." +:+ format_str Wav)) eqn:Habs.
  - destruct (path_str_snoc (path_root (row_id +:+ "." +:+ format_str Wav)) P)
      as (pre & Hpre).
    exists (pre +:+ n). intros f.
    rewrite (is_absolute_ext _ f Wav), Habs. unfold Path.
    rewrite (path_root_ext _ f Wav), HP, Hpre, string_app_assoc; [done|].
    apply dot_ext_facts.
  - destruct (path_str_snoc (p_root (Path outdir)) (p_parts (Path outdir) ++ P))
      as (pre & Hpre).
    exists (pre +:+ n). intros f.
    rewrite (is_absolute_ext _ f Wav), Habs.
    rewrite HP, (assoc_L (++)), Hpre, string_app_assoc; [done|].
    apply dot_ext_facts.
Qed.

(** Two formats give two files, under whatever current directory: the paths
    end in different last components. *)
Lemma out_file_realpath_ne cwd outdir row_id f g :
  f ≠ g →
  realpath cwd (out_file outdir row_id (format_str f)) ≠
  realpath cwd (out_file outdir row_id (format_str g)).
Proof.
  intros Hfg. destruct (out_file_shape outdir row_id) as (S & HS).
  rewrite !HS. destruct (path_parts_tail S) as (P & n & HP).
  unfold realpath. rewrite (is_absolute_ext S f g), !HP, !foldl_app.
  cbn [foldl]. unfold walk at 1 3.
  destruct (dot_ext_facts n f) as (_ & _ & _ & Hf).
  destruct (dot_ext_facts n g) as (_ & _ & _ & Hg).
  rewrite !decide_False by done.
  intros [= H%(inj (String.app n))]. by destruct f, g.
Qed.

Lemma out_file_wav_ne outdir row_id f :
  f ≠ Wav → out_file outdir row_id "wav" ≠ out_file outdir row_id (format_str f).
Proof.
  intros Hf Heq.
  apply (out_file_realpath_ne [] outdir row_id Wav f); [done|].
  change (format_str Wav) with "wav". by rewrite Heq.
Qed.

(** The files after the output block of a row that went through. *)
Lemma write_output_files E args row_id wav w w' :
  write_output E args row_id wav w = (Ok (), w') →
  let out := out_file (outdir args) row_id (format_str (fmt args)) in
  let tmp := mkstemp_name E ".wav" (dom (files w)) in
  (fmt args = Wav ∧ use_ffmpeg args = false →
   files w' = <[out := wav]> (files w)) ∧
  ((fmt args = Wav ∧ use_ffmpeg args = true) ∨
   (fmt args ≠ Wav ∧ delete_original_wav args = true) →
   tmp ∉ dom (files w) → tmp ≠ out →
   ∃ b, ffmpeg_encode E (template_opts (fmt args)) out wav = Some b ∧
        files w' = <[out := b]> (files w)) ∧
  (fmt args ≠ Wav ∧ delete_original_wav args = false →
   ∃ b, ffmpeg_encode E [] out wav = Some b ∧
        files w' =
          <[out := b]>
            (<[out_file (outdir args) row_id "wav" := wav]> (files w))).
Proof.
  intros Hw out tmp. revert Hw. unfold write_output, write_direct_wav.
  assert (Hconv : ∀ msg,
    (convert_wav_bytes_with_ffmpeg E wav out (format_str (fmt args)) true;;
     print msg) w = (Ok (), w') →
    tmp ∉ dom (files w) → tmp ≠ out →
    ∃ b, ffmpeg_encode E (template_opts (fmt args)) out wav = Some b ∧
         files w' = <[out := b]> (files w)).
  { intros msg. cbv beta iota zeta delta [mbind M_bind].
    destruct (convert_wav_bytes_with_ffmpeg E _ _ _ _ w) as [r1 w1] eqn:Hc.
    destruct r1 as [[]| |]; [|done..]. unfold_M. intros [= <-] Hfr Hne.
    apply convert_ok in Hc as (cmd & opts & b & Hcmd & -> & He & Hf & _);
      [|done..].
    rewrite ffmpeg_cmd_format in Hcmd. injection Hcmd as Hopts.
    apply app_inj_tail in Hopts as [<- _]. eauto. }
  destruct (fmt args) eqn:Hfmt, (use_ffmpeg args) eqn:Hu;
    cbn [bool_decide decide_rel format_eq_dec andb negb];
    rewrite ?bool_decide_eq_true_2, ?bool_decide_eq_false_2 by done;
    cbn [andb negb].
  all: try (intros Hw; split; [by intros [? ?]|]; split;
            [intros _; by eapply Hconv|by intros [? ?]]).
  { unfold_M. intros [= <-]. split; [done|].
    split; [by intros [[? ?]|[? ?]]|by intros [? ?]]. }
  all: destruct (delete_original_wav args) eqn:Hd.
  all: try (intros Hw; split; [by intros [? ?]|]; split;
            [intros _; by eapply Hconv|by intros [? ?]]).
  all: unfold_M;
    destruct (subprocess_run E _ _) as [r1 w1] eqn:Hrun;
    destruct r1 as [[]| |]; [|done..]; intros [= <-];
    apply ffmpeg_convert_ok in Hrun
      as (o & data & b & [= <-] & Hin & He & Hf & _);
    cbn [files log] in *; rewrite lookup_insert_eq in Hin;
    injection Hin as <-;
    (split; [by intros [? ?]|]); (split; [by intros [[? ?]|[? ?]]|]);
    intros _; exists b; done.
Qed.

Lemma eligible_tests args wanted r :
  eligible args wanted r = true →
  PyStr.nonempty (row_id_of args r) = true ∧
  filtered_out wanted (row_id_of args r) = false ∧
  PyStr.nonempty (ssml_of args r) = true.
Proof.
  unfold eligible. intros [[? ?%negb_true_iff]%andb_prop ?]%andb_prop. done.
Qed.

(** With mp3 requested and the intermediate wav kept, a row leaves two
    files in the output directory. *)
Lemma kept_intermediate_wav_is_a_second_file :
  let E := Demo.env true [Demo.mk_row "1" "<speak>one</speak>"] in
  let args := Demo.args Mp3 true false None in
  (main E args empty_world).1 = Ok () ∧
  dom (files (main E args empty_world).2) =
    {["out_audio/1.wav"; "out_audio/1.mp3"]} ∧
  ¬ ∃ b, files (main E args empty_world).2 =
           <["out_audio/1.mp3" := b]> (files empty_world).
Proof.
  cbv zeta. split; [vm_compute; reflexivity|].
  split; [vm_compute; reflexivity|].
  intros [b H]. apply (f_equal (λ m, m !! "out_audio/1.wav")) in H.
  vm_compute in H. discriminate H.
Qed.

(** C1, as the code has it.  A row that is submitted and goes through
    changes the disk as follows.  For wav, and for mp3 or ogg with
    [--delete-original-wav], exactly one file is written,
    [outdir/id.extension] as pathlib joins and spells it, and nothing else
    changes (the temporary file of a conversion, under a name that is new
    and is not the output, is gone).  For mp3 or ogg without
    [--delete-original-wav] exactly two files are written:
    [outdir/id.wav], which is kept, and [outdir/id.extension]; they are two
    files, not two spellings of one, whatever the current directory. *)
Theorem output_files_of_a_row E args wanted r st w st' w' :
  eligible args wanted r = true →
  row_body E args wanted r st w = (Ok st', w') →
  let out :=
    out_file (outdir args) (row_id_of args r) (format_str (fmt args)) in
  let kept := out_file (outdir args) (row_id_of args r) "wav" in
  let tmp := mkstemp_name E ".wav" (dom (files w)) in
  (fmt args = Wav ∨ delete_original_wav args = true →
   (use_ffmpeg args = true ∨ fmt args ≠ Wav →
    (tmp ∉ dom (files w)) ∧ tmp ≠ out) →
   ∃ b, files w' = <[out := b]> (files w)) ∧
  (fmt args ≠ Wav ∧ delete_original_wav args = false →
   kept ≠ out ∧
   (∀ cwd, realpath cwd kept ≠ realpath cwd out) ∧
   ∃ wav b, files w' = <[out := b]> (<[kept := wav]> (files w))).
Proof.
  intros (Hid & Hfl & Hss)%eligible_tests. unfold row_body.
  rewrite Hid, Hfl, Hss. cbn [negb].
  cbv beta iota zeta delta [mbind M_bind].
  destruct (synthesize_ssml_wav E _ _ _ _ w) as [r1 w1] eqn:Hs.
  apply synthesize_spec in Hs as (_ & Hf1 & _).
  destruct r1 as [wav| |]; [|done..].
  destruct (write_output E args _ wav w1) as [r2 w2] eqn:Ho.
  destruct r2 as [[]| |]; [|done..].
  unfold_M. intros [= _ <-].
  apply write_output_files in Ho as (H1 & H2 & H3). rewrite Hf1 in *.
  split.
  - intros Hmode Htmp.
    destruct (decide (fmt args = Wav)) as [Hw|Hw].
    + destruct (use_ffmpeg args) eqn:Hu; [|by eauto].
      destruct Htmp as [? ?]; [by left|].
      destruct H2 as (b & _ & ?); eauto.
    + destruct Hmode as [?|Hd]; [done|].
      destruct Htmp as [? ?]; [by right|].
      destruct H2 as (b & _ & ?); eauto.
  - intros [Hw Hd]. split; [by apply out_file_wav_ne|]. split.
    + intros cwd. by apply (out_file_realpath_ne cwd _ _ Wav).
    + destruct H3 as (b & _ & ?); eauto.
Qed.

Lemma output_files_of_a_row_witness :
  let E := Demo.env true [] in
  let r := Demo.mk_row "./1" "<speak>one</speak>" in
  (∃ b, files (row_body E (args_in "out_audio/" Ogg true true) None r
                 init_state empty_world).2 =
        <["out_audio/1.ogg" := b]> ∅) ∧
  ("out_audio/1.wav" ≠ "out_audio/1.ogg" ∧
   (∀ cwd, realpath cwd "out_audio/1.wav" ≠ realpath cwd "out_audio/1.ogg") ∧
   ∃ wav b, files (row_body E (args_in "out_audio/" Ogg true false) None r
                     init_state empty_world).2 =
            <["out_audio/1.ogg" := b]> (<["out_audio/1.wav" := wav]> ∅)).
Proof.
  cbv zeta. split.
  - refine (proj1 (output_files_of_a_row (Demo.env true [])
      (args_in "out_audio/" Ogg true true) None
      (Demo.mk_row "./1" "<speak>one</speak>") init_state empty_world
      {| generated := 1; skipped := 0; seen_ids := {["./1"]} |}
      (row_body (Demo.env true []) (args_in "out_audio/" Ogg true true) None
         (Demo.mk_row "./1" "<speak>one</speak>") init_state empty_world).2
      _ _) _ _).
    + vm_compute. reflexivity.
    + vm_compute. reflexivity.
    + by right.
    + intros _. split; [|done]. vm_compute. discriminate.
  - refine (proj2 (output_files_of_a_row (Demo.env true [])
      (args_in "out_audio/" Ogg true false) None
      (Demo.mk_row "./1" "<speak>one</speak>") init_state empty_world
      {| generated := 1; skipped := 0; seen_ids := {["./1"]} |}
      (row_body (Demo.env true []) (args_in "out_audio/" Ogg true false) None
         (Demo.mk_row "./1" "<speak>one</speak>") init_state empty_world).2
      _ _) _).
    + vm_compute. reflexivity.
    + vm_compute. reflexivity.
    + done.
Defined.

(** ** Direct wav output *)

(** A 200 response with a payload that decodes: the call returns the
    decoded bytes, after one request. *)
Lemma synthesize_returns E k v l s w resp j a b :
  tts E (tts_url k) (tts_payload v l s) = Some resp →
  status_code resp = 200%Z →
  json_body resp = Some j →
  json_getitem j "audioContent" = Some (JStr a) →
  b64decode E a = Some b →
  synthesize_ssml_wav E k v l s w =
  (Ok b, {| files := files w;
            log := log w ++ [Post (tts_url k) (tts_payload v l s)] |}).
Proof.
  intros Hresp H200 Hj Ha Hb. unfold synthesize_ssml_wav, requests_post.
  unfold_M. rewrite Hresp. rewrite decide_False by (by intros []).
  by rewrite Hj, Ha, Hb.
Qed.

(** C8.  With [--format wav] and without [--use-ffmpeg], a row whose request
    is answered with status 200 and a payload that decodes to [b] goes
    through, and what is written to [outdir/id.wav] is [b] itself: the only
    events are the request and the line that reports the file. *)
Theorem direct_wav_is_decoded_payload E args wanted r st w resp j a b :
  fmt args = Wav → use_ffmpeg args = false →
  eligible args wanted r = true →
  tts E (request_of args r).1 (request_of args r).2 = Some resp →
  status_code resp = 200%Z →
  json_body resp = Some j →
  json_getitem j "audioContent" = Some (JStr a) →
  b64decode E a = Some b →
  let out := out_file (outdir args) (row_id_of args r) "wav" in
  ∃ st', generated st' = S (generated st) ∧
    row_body E args wanted r st w =
    (Ok st',
     {| files := <[out := b]> (files w);
        log := log w ++ [Post (request_of args r).1 (request_of args r).2;
                         Stdout (Wrote out)] |}).
Proof.
  intros Hfmt Hu (Hid & Hfl & Hss)%eligible_tests Hresp H200 Hj Ha Hb out.
  unfold row_body. rewrite Hid, Hfl, Hss. cbn [negb].
  cbv beta iota zeta delta [mbind M_bind].
  rewrite (synthesize_returns _ _ _ _ _ _ resp j a b) by done.
  unfold write_output, write_direct_wav. rewrite Hfmt, Hu.
  rewrite bool_decide_eq_true_2 by done. cbn [andb negb]. unfold_M.
  eexists. split; [|rewrite <-(assoc_L (++)); reflexivity]. done.
Qed.

Lemma direct_wav_is_decoded_payload_witness :
  ∃ st', generated st' = 1 ∧
    row_body (Demo.env false []) (Demo.args Wav false false None) None
      (Demo.mk_row "1" "<speak>one</speak>") init_state empty_world =
    (Ok st',
     {| files :=
          <["out_audio/1.wav" := [Byte.x52; Byte.x49; Byte.x46; Byte.x46]]> ∅;
        log :=
          [Post (tts_url "KEY")
             (tts_payload "en-GB-Chirp3-HD-Leda" "en-GB" "<speak>one</speak>");
           Stdout (Wrote "out_audio/1.wav")] |}).
Proof.
  exact (direct_wav_is_decoded_payload (Demo.env false [])
    (Demo.args Wav false false None) None
    (Demo.mk_row "1" "<speak>one</speak>") init_state empty_world
    _ (JObj [("audioContent", JStr "<speak>one</speak>")])
    "<speak>one</speak>" _
    eq_refl eq_refl eq_refl eq_refl eq_refl eq_refl eq_refl eq_refl).
Defined.

(** ** The two conversion commands *)

(** C2 at the input [--format mp3 --use-ffmpeg] and one row with id 1.
    With [--delete-original-wav] the conversion command is the mp3 template
    of [convert_wav_bytes_with_ffmpeg]; without it, the command that [main]
    builds itself has no codec and no quality option, so it is not the
    template applied to the kept wav. *)
Theorem kept_wav_conversion_skips_the_template :
  let E := Demo.env true [Demo.mk_row "1" "<speak>one</speak>"] in
  runs (log (main E (Demo.args Mp3 true true None) empty_world).2) =
    [["ffmpeg"; "-version"];
     ["ffmpeg"; "-y"; "-i"; "/tmp/tmpq3x9.wav";
      "-codec:a"; "libmp3lame"; "-q:a"; "2"; "out_audio/1.mp3"]] ∧
  runs (log (main E (Demo.args Mp3 true false None) empty_world).2) =
    [["ffmpeg"; "-version"];
     ["ffmpeg"; "-y"; "-i"; "out_audio/1.wav"; "out_audio/1.mp3"]] ∧
  ffmpeg_cmd "mp3" "out_audio/1.wav" "out_audio/1.mp3" =
    Some ["ffmpeg"; "-y"; "-i"; "out_audio/1.wav";
          "-codec:a"; "libmp3lame"; "-q:a"; "2"; "out_audio/1.mp3"].
Proof. cbv zeta. repeat split; vm_compute; reflexivity. Qed.

(** Whatever the lossy format and the files, the command of the kept-wav
    path is not an instance of the template. *)
Lemma kept_wav_command_is_no_template f tmp kept out :
  ffmpeg_cmd (format_str f) tmp out ≠ Some ["ffmpeg"; "-y"; "-i"; kept; out].
Proof.
  rewrite ffmpeg_cmd_format. intros [= _ H].
  apply (f_equal length) in H. rewrite length_app in H.
  destruct f; cbn in H; lia.
Qed.

(** ** [convert_wav_bytes_with_ffmpeg]: the temporary file and failures *)

(** The conversion, step by step: the temporary file is created and filled,
    the command of the format (if any) is run, and the [finally] block
    removes the temporary file when asked to. *)
Lemma convert_cases E wav out f del w :
  let tmp := mkstemp_name E ".wav" (dom (files w)) in
  let w1 := {| files := <[tmp := wav]> (<[tmp := []]> (files w));
               log := log w |} in
  ∃ r w2,
    convert_wav_bytes_with_ffmpeg E wav out f del w =
      (r, {| files := if del then delete tmp (files w2) else files w2;
             log := log w2 |}) ∧
    match ffmpeg_cmd f tmp out with
    | None => r = Raise (UnsupportedFormat f) ∧ w2 = w1
    | Some cmd => subprocess_run E cmd w1 = (r, w2)
    end.
Proof.
  intros tmp w1. unfold convert_wav_bytes_with_ffmpeg. unfold_M. fold tmp.
  assert (Hclean : ∀ (r : result ()) (w2 : world),
    (let (r2, w3) :=
       (if del && bool_decide (is_Some (files w2 !! tmp))
        then λ w0 : world,
               (Ok (), {| files := delete tmp (files w0); log := log w0 |})
        else λ w0 : world, (Ok (), w0)) w2 in
     match r2 with
     | Ok _ => (r, w3)
     | Exit c => (Exit c, w3)
     | Raise e => (Raise e, w3)
     end) =
    (r, {| files := if del then delete tmp (files w2) else files w2;
           log := log w2 |})).
  { intros r w2. destruct del; cbn [andb]; [|by destruct w2].
    case_bool_decide as Hex; [done|].
    rewrite delete_id; [by destruct w2|].
    by apply eq_None_not_Some. }
  destruct (ffmpeg_cmd f tmp out) as [cmd|].
  - destruct (subprocess_run E cmd _) as [r w2] eqn:Hrun.
    exists r, w2. split; [|done]. fold w1 in Hrun. apply Hclean.
  - exists (Raise (UnsupportedFormat f)), w1. split; [|done]. apply Hclean.
Qed.


(** A conversion command [ffmpeg -y -i INPUT OPTIONS OUTPUT], run. *)
Lemma subprocess_run_convert E input opts out w :
  let cmd := "ffmpeg" :: "-y" :: "-i" :: input :: opts ++ [out] in
  subprocess_run E cmd w =
  if ffmpeg_installed E then
    match files w !! input with
    | Some data =>
        match ffmpeg_encode E opts out data with
        | Some b =>
            (Ok (), {| files := <[out := b]> (files w);
                       log := log w ++ [Run cmd] |})
        | None => (Raise (CalledProcessError cmd), add_log w [Run cmd])
        end
    | None => (Raise (CalledProcessError cmd), add_log w [Run cmd])
    end
  else (Raise (ExecNotFound cmd), add_log w [Run cmd]).
Proof.
  intros cmd. unfold subprocess_run, cmd, add_log. unfold_M.
  destruct (ffmpeg_installed E).
  2:{ rewrite decide_False; [done|]. by intros [_ ?]. }
  rewrite decide_True by done. rewrite decide_True by done.
  rewrite last_snoc, length_app, Nat.add_sub, take_app_length.
  cbn [files log]. destruct (files w !! input) as [data|]; [|done].
  by destruct (ffmpeg_encode E opts out data).
Qed.



(** X2.  A format other than wav, mp3 and ogg: the call raises
    [ValueError] without starting a program.  The temporary file was
    created before the format was looked at; it is removed if
    [delete_temp] is set, and left behind, holding the wav bytes,
    otherwise. *)
Theorem convert_unsupported_format E wav out f del w :
  f ≠ "wav" → f ≠ "mp3" → f ≠ "ogg" →
  let tmp := mkstemp_name E ".wav" (dom (files w)) in
  let rw := convert_wav_bytes_with_ffmpeg E wav out f del w in
  rw.1 = Raise (UnsupportedFormat f) ∧ log rw.2 = log w ∧
  (tmp ∉ dom (files w) →
   files rw.2 = if del then files w else <[tmp := wav]> (files w)).
Proof.
  intros Hw Hm Ho tmp rw. subst rw.
  destruct (convert_cases E wav out f del w) as (r & w2 & -> & Hc).
  fold tmp in Hc. unfold ffmpeg_cmd in Hc.
  rewrite !decide_False in Hc by done. destruct Hc as [-> ->].
  cbn. split; [done|]. split; [done|]. intros Hfresh%not_elem_of_dom.
  rewrite insert_insert_eq. destruct del; [|done].
  rewrite delete_insert_eq. by apply delete_id.
Qed.

Lemma convert_unsupported_format_witness :
  (convert_wav_bytes_with_ffmpeg (Demo.env true []) [Byte.x52] "out/1.flac"
     "flac" false empty_world).1 = Raise (UnsupportedFormat "flac") ∧
  files (convert_wav_bytes_with_ffmpeg (Demo.env true []) [Byte.x52]
     "out/1.flac" "flac" false empty_world).2 =
    <["/tmp/tmpq3x9.wav" := [Byte.x52]]> ∅.
Proof.
  pose proof (convert_unsupported_format (Demo.env true []) [Byte.x52]
    "out/1.flac" "flac" false empty_world
    ltac:(discriminate) ltac:(discriminate) ltac:(discriminate))
    as (H1 & _ & H3).
  split; [exact H1|]. apply H3. vm_compute. discriminate.
Defined.

(** X3.  A supported format whose conversion cannot be done: without an
    ffmpeg program the call raises [FileNotFoundError], and when ffmpeg
    exits with a non-zero status it raises [CalledProcessError]; either
    way the one command that was tried is the template of the format on
    the temporary file. *)
Theorem convert_propagates_ffmpeg_failure E wav out fm del w :
  let tmp := mkstemp_name E ".wav" (dom (files w)) in
  let cmd := "ffmpeg" :: "-y" :: "-i" :: tmp :: template_opts fm ++ [out] in
  let rw := convert_wav_bytes_with_ffmpeg E wav out (format_str fm) del w in
  log rw.2 = log w ++ [Run cmd] ∧
  (ffmpeg_installed E = false → rw.1 = Raise (ExecNotFound cmd)) ∧
  (ffmpeg_installed E = true →
   ffmpeg_encode E (template_opts fm) out wav = None →
   rw.1 = Raise (CalledProcessError cmd)).
Proof.
  intros tmp cmd rw. subst rw.
  destruct (convert_cases E wav out (format_str fm) del w)
    as (r & w2 & -> & Hc).
  fold tmp in Hc. rewrite ffmpeg_cmd_format in Hc. fold cmd in Hc.
  unfold cmd in Hc. rewrite subprocess_run_convert in Hc. fold cmd in Hc.
  cbn [files log] in Hc. rewrite lookup_insert_eq in Hc. cbn [fst snd log].
  destruct (ffmpeg_installed E).
  - destruct (ffmpeg_encode E _ out wav); injection Hc as <- <-; done.
  - injection Hc as <- <-. done.
Qed.

(** X4.  A supported format with ffmpeg installed and able to encode: the
    call returns, after the one template command, and the output file
    holds the encoding of exactly the wav bytes under the options of the
    format; the temporary file is removed or kept as [delete_temp] says. *)
Theorem convert_writes_the_encoding E wav out fm del w b :
  ffmpeg_installed E = true →
  ffmpeg_encode E (template_opts fm) out wav = Some b →
  let tmp := mkstemp_name E ".wav" (dom (files w)) in
  let cmd := "ffmpeg" :: "-y" :: "-i" :: tmp :: template_opts fm ++ [out] in
  convert_wav_bytes_with_ffmpeg E wav out (format_str fm) del w =
  (Ok (),
   {| files :=
        if del then delete tmp (<[out := b]> (<[tmp := wav]> (files w)))
        else <[out := b]> (<[tmp := wav]> (files w));
      log := log w ++ [Run cmd] |}).
Proof.
  intros Hi He tmp cmd.
  destruct (convert_cases E wav out (format_str fm) del w)
    as (r & w2 & -> & Hc).
  fold tmp in Hc. rewrite ffmpeg_cmd_format in Hc.
  rewrite subprocess_run_convert in Hc. fold cmd in Hc.
  cbn [files log] in Hc. rewrite lookup_insert_eq, Hi, He in Hc.
  injection Hc as <- <-. cbn [files log]. by rewrite insert_insert_eq.
Qed.

Lemma convert_writes_the_encoding_witness :
  convert_wav_bytes_with_ffmpeg (Demo.env true []) [Byte.x52] "out/1.ogg"
    "ogg" false empty_world =
  (Ok (),
   {| files := <["out/1.ogg" := [Byte.x00; Byte.x52]]>
                 (<["/tmp/tmpq3x9.wav" := [Byte.x52]]> ∅);
      log := [Run ["ffmpeg"; "-y"; "-i"; "/tmp/tmpq3x9.wav"; "-codec:a";
                   "libvorbis"; "-q:a"; "5"; "out/1.ogg"]] |}).
Proof.
  exact (convert_writes_the_encoding (Demo.env true []) [Byte.x52]
           "out/1.ogg" Ogg false empty_world [Byte.x00; Byte.x52]
           eq_refl eq_refl).
Defined.

(** ** [ffmpeg_exists] and the exits of [main] *)

(** X5.  [ffmpeg_exists] never raises and never exits, with or without an
    ffmpeg program: it answers whether there is one, after one
    [ffmpeg -version] and without touching a file. *)
Theorem ffmpeg_exists_never_raises E w :
  (ffmpeg_exists E w).1 = Ok (ffmpeg_installed E) ∧
  files (ffmpeg_exists E w).2 = files w ∧
  log (ffmpeg_exists E w).2 = log w ++ [Run ["ffmpeg"; "-version"]].
Proof.
  unfold ffmpeg_exists, subprocess_run. unfold_M.
  destruct (ffmpeg_installed E).
  - rewrite decide_True by done. by rewrite decide_True.
  - rewrite decide_False; [done|]. by intros [_ ?].
Qed.

(** X6.  A run that ends in [sys.exit], with whatever code, has done no
    work: no request was sent, no file was written and nothing was printed
    on standard output. *)
Theorem exit_before_any_work E args w c :
  (main E args w).1 = Exit c →
  posts (log (main E args w).2) = posts (log w) ∧
  files (main E args w).2 = files w ∧
  printed (log (main E args w).2) = printed (log w).
Proof.
  rewrite main_cases.
  destruct (dataset E (csv args)) as [[fieldnames rows]|].
  2:{ intros _. cbn. by rewrite posts_app, printed_app, !app_nil_r. }
  destruct (lossy (fmt args) && negb (use_ffmpeg args)).
  { intros _. cbn. by rewrite posts_app, printed_app, !app_nil_r. }
  destruct (use_ffmpeg args && negb (ffmpeg_installed E)).
  { intros _. cbn. by rewrite posts_app, printed_app, !app_nil_r. }
  cbv zeta. repeat case_decide; try done.
  destruct (for_rows _ rows init_state _) as [r1 w1] eqn:Hloop.
  apply for_rows_spec in Hloop as [Hne _]. by destruct r1.
Qed.

Lemma exit_before_any_work_witness :
  posts (log (main (Demo.env false Demo.rows123)
                (Demo.args Wav true false None) empty_world).2) = [] ∧
  files (main (Demo.env false Demo.rows123)
           (Demo.args Wav true false None) empty_world).2 = ∅ ∧
  printed (log (main (Demo.env false Demo.rows123)
                  (Demo.args Wav true false None) empty_world).2) = [].
Proof.
  apply (exit_before_any_work (Demo.env false Demo.rows123)
           (Demo.args Wav true false None) empty_world 3).
  vm_compute. reflexivity.
Defined.

(** ** [parse_ids]: what a filter looks like *)

Lemma all_chars_and p q s :
  all_chars p s = true → all_chars q s = true →
  all_chars (λ c, p c && q c) s = true.
Proof.
  induction s as [|c s IH]; [done|]. cbn.
  intros [-> ?]%andb_prop [-> ?]%andb_prop. cbn. auto.
Qed.

Lemma all_chars_impl (p q : ascii → bool) s :
  (∀ c, p c = true → q c = true) →
  all_chars p s = true → all_chars q s = true.
Proof.
  intros Hpq. induction s as [|c s IH]; [done|]. cbn.
  intros [?%Hpq ?]%andb_prop. rewrite IH by done. by rewrite H.
Qed.

Lemma replace_no_comma s : no_comma (PyStr.replace "," " " s) = true.
Proof.
  unfold no_comma. induction s as [|c s IH]; [done|]. cbn. rewrite IH.
  case_decide; [done|]. by rewrite bool_decide_eq_false_2.
Qed.

(** The words of [split] are made of characters of the string. *)
Lemma split_aux_chars p s :
  all_chars p s = true →
  all_chars p (PyStr.split_aux s).1 = true ∧
  Forall (λ t, all_chars p t = true) (PyStr.split_aux s).2.
Proof.
  induction s as [|c s IH]; [by split|]. cbn.
  intros [Hc [IHc IHw]%IH]%andb_prop.
  destruct (PyStr.split_aux s) as [cur ws]. cbn in *.
  destruct (PyStr.isspace c); cbn.
  - split; [done|]. destruct cur; [done|]. by constructor.
  - by rewrite Hc, IHc.
Qed.

Lemma id_words_sep_free s :
  Forall (λ t, t ≠ "" ∧ sep_free t = true) (id_words s).
Proof.
  pose proof (split_no_space (PyStr.replace "," " " s)) as Hsp.
  pose proof (split_aux_chars _ _ (replace_no_comma s)) as [Hc Hw].
  assert (Hcomma : Forall (λ t, no_comma t = true) (id_words s)).
  { unfold id_words, PyStr.split.
    destruct (PyStr.split_aux _) as [cur ws]. cbn in *.
    destruct cur; [done|]. by constructor. }
  unfold id_words in *. clear Hc Hw.
  induction Hsp as [|t ws [Hne Hns] _ IH]; [done|].
  apply Forall_cons in Hcomma as [Ht Hcomma].
  constructor; [|by apply IH]. split; [done|].
  pose proof (all_chars_and _ _ _ Ht Hns) as Hboth.
  revert Hboth. apply all_chars_impl. intros c. unfold is_sep.
  by destruct (bool_decide _), (PyStr.isspace c).
Qed.

(** X7.  A filter that [parse_ids] returns is never the empty set (it
    returns [None] instead), and no id in it is empty or has a comma or
    whitespace in it. *)
Theorem parse_ids_filter_is_well_formed ids_arg W :
  parse_ids ids_arg = Some W →
  W ≠ ∅ ∧ ∀ x, x ∈ W → x ≠ "" ∧ sep_free x = true.
Proof.
  destruct ids_arg as [s|]; [|done]. rewrite parse_ids_words.
  pose proof (id_words_sep_free s) as Hw.
  destruct (id_words s) as [|t ws]; [done|]. intros [= <-]. split.
  - apply (non_empty_inhabited_L t).
    change (t ∈ {[t]} ∪ (list_to_set ws : gset string)).
    by apply elem_of_union_l, elem_of_singleton.
  - intros x Hx. rewrite Forall_forall in Hw. apply Hw.
    change (x ∈ (list_to_set (t :: ws) : gset string)) in Hx.
    by apply elem_of_list_to_set in Hx.
Qed.

Lemma parse_ids_filter_is_well_formed_witness :
  ({["7"; "3"; "12"]} : gset string) ≠ ∅ ∧
  ∀ x, x ∈ ({["7"; "3"; "12"]} : gset string) → x ≠ "" ∧ sep_free x = true.
Proof.
  apply (parse_ids_filter_is_well_formed (Some ", 7,3  7 ,12")).
  vm_compute. reflexivity.
Defined.

(** ** The counters of a run *)

Lemma eligible_skip_counted_lengths args wanted rows :
  length (filter (λ r, eligible args wanted r) rows) +
  length (filter (λ r, skip_counted args wanted r) rows) ≤ length rows ∧
  (wanted = None →
   length (filter (λ r, eligible args wanted r) rows) +
   length (filter (λ r, skip_counted args wanted r) rows) = length rows).
Proof.
  induction rows as [|r rows [IH1 IH2]]; [done|].
  rewrite !filter_bool_cons.
  assert (Hdisj : eligible args wanted r && skip_counted args wanted r = false).
  { unfold eligible, skip_counted.
    by destruct (PyStr.nonempty (row_id_of args r)),
      (filtered_out wanted (row_id_of args r)),
      (PyStr.nonempty (ssml_of args r)). }
  assert (Hcov : wanted = None →
    eligible args wanted r || skip_counted args wanted r = true).
  { intros ->. unfold eligible, skip_counted. cbn [filtered_out].
    by destruct (PyStr.nonempty (row_id_of args r)),
      (PyStr.nonempty (ssml_of args r)). }
  destruct (eligible args wanted r), (skip_counted args wanted r);
    try done; cbn [length]; (split; [lia|]); intros HN;
    specialize (IH2 HN); specialize (Hcov HN); try done; lia.
Qed.

(** X8.  A run that reads every row closes with [Done. Generated: g |
    Skipped: s] where [g] is the number of requests it sent and
    [g + s] is at most the number of rows; without an id filter every row
    is either generated or skipped, [g + s] is the number of rows. *)
Theorem counters_account_for_the_rows E args w fieldnames rows :
  dataset E (csv args) = Some (fieldnames, rows) →
  (main E args w).1 = Ok () →
  ∃ g s,
    last (log (main E args w).2) = Some (Stdout (DoneMsg g s)) ∧
    length (posts (log (main E args w).2)) = length (posts (log w)) + g ∧
    g + s ≤ length rows ∧
    (parse_ids (ids args) = None → g + s = length rows).
Proof.
  intros Hd Hok.
  destruct (main_ok E args w _ _ Hd Hok)
    as (st & new & Hg & Hs & _ & Hlog & _ & Hposts).
  pose proof (eligible_skip_counted_lengths args (parse_ids (ids args)) rows)
    as [Hle Heq].
  exists (generated st), (skipped st). rewrite Hlog. split; [|split].
  - by rewrite !last_app, closing_report_last.
  - rewrite !posts_app, !length_app, Hposts, length_fmap, Hg.
    unfold closing_report.
    destruct (parse_ids (ids args)) as [W|]; [|cbn; lia].
    destruct (not_found_ids W (seen_ids st)); cbn; lia.
  - rewrite Hg, Hs. split; [done|]. exact Heq.
Qed.

Lemma counters_account_for_the_rows_witness :
  ∃ g s,
    last (log (main (Demo.env true Demo.rows123)
                 (Demo.args Wav false false None) empty_world).2) =
      Some (Stdout (DoneMsg g s)) ∧
    length (posts (log (main (Demo.env true Demo.rows123)
                          (Demo.args Wav false false None) empty_world).2)) =
      length (posts (log empty_world)) + g ∧
    g + s ≤ length Demo.rows123 ∧
    (parse_ids (ids (Demo.args Wav false false None)) = None →
     g + s = length Demo.rows123).
Proof.
  apply (counters_account_for_the_rows (Demo.env true Demo.rows123)
           (Demo.args Wav false false None) empty_world ["id"; "ssml"]).
  - reflexivity.
  - vm_compute. reflexivity.
Defined.

(** ** Rows that fail *)

Lemma synthesize_ok_inv E k v l s w b w' :
  synthesize_ssml_wav E k v l s w = (Ok b, w') →
  ∃ resp j a,
    tts E (tts_url k) (tts_payload v l s) = Some resp ∧
    status_code resp = 200%Z ∧ json_body resp = Some j ∧
    json_getitem j "audioContent" = Some (JStr a) ∧ b64decode E a = Some b.
Proof.
  unfold synthesize_ssml_wav, requests_post. unfold_M.
  destruct (tts E _ _) as [resp|]; [|done].
  case_decide as Hst; [done|].
  destruct (json_body resp) as [j|] eqn:Hj; [|done].
  destruct (json_getitem j "audioContent") as [[| | |a| |]|] eqn:Hg;
    try done.
  destruct (b64decode E a) as [b'|] eqn:Hb; [|done].
  intros [= <- _]. by exists resp, j, a.
Qed.

Lemma row_body_ok_inv E args wanted r st w st' w' :
  eligible args wanted r = true →
  row_body E args wanted r st w = (Ok st', w') → answered_ok E args r.
Proof.
  intros (Hid & Hfl & Hss)%eligible_tests. unfold row_body.
  rewrite Hid, Hfl, Hss. cbn [negb].
  cbv beta iota zeta delta [mbind M_bind].
  destruct (synthesize_ssml_wav E _ _ _ _ w) as [r1 w1] eqn:Hs.
  destruct r1 as [b| |]; [|done..]. intros _.
  apply synthesize_ok_inv in Hs as (resp & j & a & ?). by exists resp, j, a, b.
Qed.

Lemma for_rows_ok_inv E args wanted rows st w st' w' :
  for_rows (row_body E args wanted) rows st w = (Ok st', w') →
  ∀ r, r ∈ rows → eligible args wanted r = true → answered_ok E args r.
Proof.
  revert st w. induction rows as [|r0 rows IH]; intros st w.
  { intros _ r []%elem_of_nil. }
  cbn [for_rows]. cbv beta iota zeta delta [mbind M_bind].
  destruct (row_body E args wanted r0 st w) as [r1 w1] eqn:Hb.
  destruct r1 as [st1| |]; [|done..]. intros Hloop r Hr He.
  apply elem_of_cons in Hr as [->|Hr]; [|by eapply IH].
  by eapply row_body_ok_inv.
Qed.

(** X9.  A failure on a row is not caught: a run ends normally only if
    every row it had to submit was answered with status 200 and a payload
    under ["audioContent"] that decodes.  (One answer with another status,
    and the run raises instead of reaching its closing report.) *)
Theorem run_completes_only_if_every_row_succeeded E args w fieldnames rows :
  dataset E (csv args) = Some (fieldnames, rows) →
  (main E args w).1 = Ok () →
  ∀ r, r ∈ rows → eligible args (parse_ids (ids args)) r = true →
    ∃ resp j a b,
      tts E (request_of args r).1 (request_of args r).2 = Some resp ∧
      status_code resp = 200%Z ∧ json_body resp = Some j ∧
      json_getitem j "audioContent" = Some (JStr a) ∧
      b64decode E a = Some b.
Proof.
  intros Hd. rewrite main_cases, Hd. cbv zeta.
  destruct (lossy (fmt args) && negb (use_ffmpeg args)); [done|].
  destruct (use_ffmpeg args && negb (ffmpeg_installed E)); [done|].
  repeat case_decide; try done.
  destruct (for_rows _ rows init_state _) as [r1 w1] eqn:Hloop.
  destruct r1 as [st| |]; [|done..]. intros _ r Hr He.
  exact (for_rows_ok_inv _ _ _ _ _ _ _ _ Hloop r Hr He).
Qed.

Lemma run_completes_only_if_every_row_succeeded_witness :
  ∃ resp j a b,
    tts (Demo.env true Demo.rows123)
      (request_of (Demo.args Wav false false None)
         (Demo.mk_row "2" "<speak>two</speak>")).1
      (request_of (Demo.args Wav false false None)
         (Demo.mk_row "2" "<speak>two</speak>")).2 = Some resp ∧
    status_code resp = 200%Z ∧ json_body resp = Some j ∧
    json_getitem j "audioContent" = Some (JStr a) ∧
    b64decode (Demo.env true Demo.rows123) a = Some b.
Proof.
  apply (run_completes_only_if_every_row_succeeded
           (Demo.env true Demo.rows123) (Demo.args Wav false false None)
           empty_world ["id"; "ssml"] Demo.rows123).
  - reflexivity.
  - vm_compute. reflexivity.
  - unfold Demo.rows123. apply elem_of_cons. right. apply elem_of_cons. by left.
  - vm_compute. reflexivity.
Defined.

(** ** Runs without ffmpeg *)

(** The call does not look at the world: its result is the same in every
    world, and it adds its one request to the trace. *)
Lemma synthesize_uniform E k v l s :
  ∃ res, ∀ w,
    synthesize_ssml_wav E k v l s w =
    (res, {| files := files w;
             log := log w ++ [Post (tts_url k) (tts_payload v l s)] |}).
Proof.
  unfold synthesize_ssml_wav, requests_post. unfold_M.
  destruct (tts E _ _) as [resp|]; [|by eexists].
  case_decide; [by eexists|].
  destruct (json_body resp) as [j|]; [|by eexists].
  destruct (json_getitem j "audioContent") as [[| | |a| |]|];
    try by eexists.
  destruct (b64decode E a); by eexists.
Qed.

(** With wav and without ffmpeg, what a row does to a world is the same in
    every world: it puts some files on top of those that are there, and
    adds events, none of which starts a program. *)
Lemma row_body_direct_uniform E args wanted r st :
  fmt args = Wav → use_ffmpeg args = false →
  ∃ res (M : gmap string bytes) evs, runs evs = [] ∧ ∀ w,
    row_body E args wanted r st w =
    (res, {| files := M ∪ files w; log := log w ++ evs |}).
Proof.
  intros Hfmt Hu.
  unfold row_body.
  destruct (PyStr.nonempty (row_id_of args r)); cbn [negb].
  2:{ eexists _, ∅, []. split; [done|]. intros w. unfold_M.
      by rewrite (left_id_L ∅ (∪)), app_nil_r; destruct w. }
  destruct (filtered_out wanted (row_id_of args r)).
  { eexists _, ∅, []. split; [done|]. intros w. unfold_M.
    by rewrite (left_id_L ∅ (∪)), app_nil_r; destruct w. }
  destruct (PyStr.nonempty (ssml_of args r)); cbn [negb].
  2:{ eexists _, ∅, [_].
      split; last (intros w; unfold_M; by rewrite (left_id_L ∅ (∪))).
      done. }
  destruct (synthesize_uniform E (api_key args) (voice args) (lang args)
              (ssml_of args r)) as [res Hs].
  unfold write_output, write_direct_wav. rewrite Hfmt, Hu.
  rewrite bool_decide_eq_true_2 by done. cbn [andb negb].
  destruct res as [wav| |].
  - eexists _, {[ _ := wav ]}, [_; _].
    split; last (intros w; cbv beta iota zeta delta [mbind M_bind];
                 rewrite Hs; unfold_M;
                 by rewrite <-insert_union_singleton_l, <-(assoc_L (++))).
    done.
  - eexists _, ∅, [_].
    split; last (intros w; cbv beta iota zeta delta [mbind M_bind];
                 rewrite Hs; by rewrite (left_id_L ∅ (∪))).
    done.
  - eexists _, ∅, [_].
    split; last (intros w; cbv beta iota zeta delta [mbind M_bind];
                 rewrite Hs; by rewrite (left_id_L ∅ (∪))).
    done.
Qed.

Lemma for_rows_direct_uniform E args wanted rows st :
  fmt args = Wav → use_ffmpeg args = false →
  ∃ res (M : gmap string bytes) evs, runs evs = [] ∧ ∀ w,
    for_rows (row_body E args wanted) rows st w =
    (res, {| files := M ∪ files w; log := log w ++ evs |}).
Proof.
  intros Hfmt Hu. revert st. induction rows as [|r rows IH]; intros st.
  { eexists _, ∅, []. split; [done|]. intros [f l]. cbn. unfold_M.
    by rewrite (left_id_L ∅ (∪)), app_nil_r. }
  destruct (row_body_direct_uniform E args wanted r st Hfmt Hu)
    as (r1 & M1 & e1 & Hr1 & H1).
  cbn [for_rows]. cbv beta iota zeta delta [mbind M_bind].
  destruct r1 as [st1| |].
  - destruct (IH st1) as (r2 & M2 & e2 & Hr2 & H2).
    exists r2, (M2 ∪ M1), (e1 ++ e2). split; [by rewrite runs_app, Hr1, Hr2|].
    intros w. rewrite H1, H2. cbn [files log].
    by rewrite <-!(assoc_L (∪)), <-(assoc_L (++)).
  - eexists _, M1, e1. split; [done|]. intros w. by rewrite H1.
  - eexists _, M1, e1. split; [done|]. intros w. by rewrite H1.
Qed.

Lemma main_direct_uniform E args :
  fmt args = Wav → use_ffmpeg args = false →
  ∃ res (M : gmap string bytes) evs, runs evs = [] ∧ ∀ w,
    main E args w = (res, {| files := M ∪ files w; log := log w ++ evs |}).
Proof.
  intros Hfmt Hu.
  assert (Hquiet : ∀ (res : result ()) evs, runs evs = [] →
    ∃ res' (M : gmap string bytes) evs', runs evs' = [] ∧ ∀ w,
      (res, add_log w evs) =
      (res', {| files := M ∪ files w; log := log w ++ evs' |})).
  { intros res evs Hr. exists res, ∅, evs. split; [done|]. intros w.
    unfold add_log. by rewrite (left_id_L ∅ (∪)). }
  destruct (dataset E (csv args)) as [[fieldnames rows]|] eqn:Hd.
  2:{ destruct (Hquiet (Exit 1) [Stderr (CsvNotFound (csv args))] eq_refl)
        as (res & M & evs & Hr & H).
      exists res, M, evs. split; [done|]. intros w.
      by rewrite main_cases, Hd, <-H. }
  destruct (for_rows_direct_uniform E args (parse_ids (ids args)) rows
              init_state Hfmt Hu) as (r1 & M1 & e1 & Hr1 & H1).
  assert (Hraise : ∀ e,
    ∃ res' (M : gmap string bytes) evs', runs evs' = [] ∧ ∀ w,
      (@Raise () e, w) =
      (res', {| files := M ∪ files w; log := log w ++ evs' |})).
  { intros e. exists (Raise e), ∅, []. split; [done|]. intros [f l]. cbn.
    by rewrite (left_id_L ∅ (∪)), app_nil_r. }
  assert (Hcases : ∃ res (M : gmap string bytes) evs, runs evs = [] ∧ ∀ w,
    (if decide (fieldnames = []) then (Raise EmptyCsv, w)
     else if decide (id_col args ∈ fieldnames) then
       if decide (ssml_col args ∈ fieldnames) then
         match
           for_rows (row_body E args (parse_ids (ids args))) rows
             init_state w
         with
         | (Ok st, w1) =>
             (Ok (), add_log w1 (closing_report (parse_ids (ids args)) st))
         | (Exit c, w1) => (Exit c, w1)
         | (Raise e, w1) => (Raise e, w1)
         end
       else (Raise (MissingSsmlCol (ssml_col args) fieldnames), w)
     else (Raise (MissingIdCol (id_col args) fieldnames), w)) =
    (res, {| files := M ∪ files w; log := log w ++ evs |})).
  { repeat case_decide; try apply Hraise.
    destruct r1 as [st| |].
    - exists (Ok ()), M1, (e1 ++ closing_report (parse_ids (ids args)) st).
      split.
      + rewrite runs_app, Hr1. unfold closing_report.
        destruct (parse_ids (ids args)) as [W|]; [|done].
        by destruct (not_found_ids W (seen_ids st)).
      + intros w. rewrite H1. unfold add_log. cbn [files log].
        by rewrite <-(assoc_L (++)).
    - exists (Exit code), M1, e1. split; [done|]. intros w. by rewrite H1.
    - exists (Raise e), M1, e1. split; [done|]. intros w. by rewrite H1. }
  destruct Hcases as (res & M & evs & Hr & H).
  exists res, M, evs. split; [done|]. intros w.
  rewrite main_cases, Hd, Hfmt, Hu. cbn [lossy andb negb].
  unfold after_checks. rewrite Hu. cbv zeta. apply H.
Qed.

(** X10.  With [--format wav] and without [--use-ffmpeg] a run never starts
    a program: ffmpeg is not needed, installed or not. *)
Theorem direct_wav_starts_no_program E args w :
  fmt args = Wav → use_ffmpeg args = false →
  runs (log (main E args w).2) = runs (log w).
Proof.
  intros Hfmt Hu.
  destruct (main_direct_uniform E args Hfmt Hu) as (res & M & evs & Hr & H).
  rewrite H. cbn. by rewrite runs_app, Hr, app_nil_r.
Qed.

Lemma direct_wav_starts_no_program_witness :
  runs (log (main (Demo.env false Demo.rows123)
               (Demo.args Wav false false None) empty_world).2) = [].
Proof.
  exact (direct_wav_starts_no_program (Demo.env false Demo.rows123)
           (Demo.args Wav false false None) empty_world eq_refl eq_refl).
Defined.

(** X11.  With [--format wav] and without [--use-ffmpeg], running again on
    the directory that a run left, against a service that answers the same,
    ends the same way and leaves the same files: outputs are overwritten,
    none is added or versioned. *)
Theorem direct_wav_rerun_changes_nothing E args w :
  fmt args = Wav → use_ffmpeg args = false →
  (main E args (main E args w).2).1 = (main E args w).1 ∧
  files (main E args (main E args w).2).2 = files (main E args w).2.
Proof.
  intros Hfmt Hu.
  destruct (main_direct_uniform E args Hfmt Hu) as (res & M & evs & _ & H).
  rewrite !H. cbn. split; [done|].
  by rewrite (assoc_L (∪)), (idemp_L (∪) M).
Qed.

Lemma direct_wav_rerun_changes_nothing_witness :
  let E := Demo.env false Demo.rows123 in
  let args := Demo.args Wav false false None in
  (main E args (main E args empty_world).2).1 = (main E args empty_world).1 ∧
  files (main E args (main E args empty_world).2).2 =
    files (main E args empty_world).2.
Proof.
  exact (direct_wav_rerun_changes_nothing (Demo.env false Demo.rows123)
           (Demo.args Wav false false None) empty_world eq_refl eq_refl).
Defined.

(** ** The files a run leaves alone *)







(** ** What the output files hold *)

(** A row that went through: the call returned bytes, and the output block
    wrote them. *)
Lemma row_body_ok_steps E args wanted r st w st' w' :
  eligible args wanted r = true →
  row_body E args wanted r st w = (Ok st', w') →
  ∃ b w1,
    synthesize_ssml_wav E (api_key args) (voice args) (lang args)
      (ssml_of args r) w = (Ok b, w1) ∧
    write_output E args (row_id_of args r) b w1 = (Ok (), w').
Proof.
  intros (Hid & Hfl & Hss)%eligible_tests. unfold row_body.
  rewrite Hid, Hfl, Hss. cbn [negb].
  cbv beta iota zeta delta [mbind M_bind].
  destruct (synthesize_ssml_wav E _ _ _ _ w) as [r1 w1] eqn:Hs.
  destruct r1 as [b| |]; [|done..].
  destruct (write_output E args _ b w1) as [r2 w2] eqn:Ho.
  destruct r2 as [[]| |]; [|done..].
  unfold_M. intros [= _ <-]. by exists b, w1.
Qed.

(** X13.  What a row that goes through leaves on disk, byte for byte: with
    [b] the decoded payload of the answer to its request, the output file
    holds [b] itself for wav without ffmpeg; ffmpeg's encoding of [b] under
    the options of the format for wav with ffmpeg and for mp3 or ogg with
    [--delete-original-wav]; and, without that flag, the kept
    [outdir/id.wav] holds [b] and the output holds ffmpeg's encoding of
    [b] under no option at all. *)
Theorem output_is_the_encoding_of_the_payload E args wanted r st w st' w' :
  eligible args wanted r = true →
  row_body E args wanted r st w = (Ok st', w') →
  let out :=
    out_file (outdir args) (row_id_of args r) (format_str (fmt args)) in
  let kept := out_file (outdir args) (row_id_of args r) "wav" in
  let tmp := mkstemp_name E ".wav" (dom (files w)) in
  ∃ resp j a b,
    (tts E (request_of args r).1 (request_of args r).2 = Some resp ∧
     status_code resp = 200%Z ∧ json_body resp = Some j ∧
     json_getitem j "audioContent" = Some (JStr a) ∧
     b64decode E a = Some b) ∧
    (fmt args = Wav ∧ use_ffmpeg args = false →
     files w' = <[out := b]> (files w)) ∧
    ((fmt args = Wav ∧ use_ffmpeg args = true) ∨
     (fmt args ≠ Wav ∧ delete_original_wav args = true) →
     tmp ∉ dom (files w) → tmp ≠ out →
     ∃ enc, ffmpeg_encode E (template_opts (fmt args)) out b = Some enc ∧
            files w' = <[out := enc]> (files w)) ∧
    (fmt args ≠ Wav ∧ delete_original_wav args = false →
     ∃ enc, ffmpeg_encode E [] out b = Some enc ∧
            files w' = <[out := enc]> (<[kept := b]> (files w))).
Proof.
  intros He Hb out kept tmp.
  destruct (row_body_ok_steps _ _ _ _ _ _ _ _ He Hb) as (b & w1 & Hs & Ho).
  pose proof (synthesize_spec _ _ _ _ _ _ _ _ Hs) as (_ & Hf1 & _).
  apply synthesize_ok_inv in Hs as (resp & j & a & Hans).
  apply write_output_files in Ho as (Hdir & Htpl & Hkeep).
  rewrite Hf1 in *. by exists resp, j, a, b.
Qed.

Lemma output_is_the_encoding_of_the_payload_witness :
  ∃ resp j a b,
    (tts (Demo.env true [])
       (request_of (Demo.args Mp3 true false None)
          (Demo.mk_row "1" "<speak>one</speak>")).1
       (request_of (Demo.args Mp3 true false None)
          (Demo.mk_row "1" "<speak>one</speak>")).2 = Some resp ∧
     status_code resp = 200%Z ∧ json_body resp = Some j ∧
     json_getitem j "audioContent" = Some (JStr a) ∧
     b64decode (Demo.env true []) a = Some b) ∧
    ∃ enc, ffmpeg_encode (Demo.env true []) [] "out_audio/1.mp3" b = Some enc ∧
      files (row_body (Demo.env true []) (Demo.args Mp3 true false None) None
               (Demo.mk_row "1" "<speak>one</speak>") init_state
               empty_world).2 =
      <["out_audio/1.mp3" := enc]> (<["out_audio/1.wav" := b]> ∅).
Proof.
  destruct (output_is_the_encoding_of_the_payload (Demo.env true [])
    (Demo.args Mp3 true false None) None
    (Demo.mk_row "1" "<speak>one</speak>") init_state empty_world
    {| generated := 1; skipped := 0; seen_ids := {["1"]} |}
    (row_body (Demo.env true []) (Demo.args Mp3 true false None) None
       (Demo.mk_row "1" "<speak>one</speak>") init_state empty_world).2)
    as (resp & j & a & b & Hans & _ & _ & H3).
  - vm_compute. reflexivity.
  - vm_compute. reflexivity.
  - exists resp, j, a, b. split; [exact Hans|]. by apply H3.
Defined.

(** ** A row without an id field *)



(** ** Rows that write the same path *)



